(** * BtcTunnel client: a shallow embedding of [src/Client.cc]

    The client half of a TCP-over-KCP tunnel.  The development follows the
    source file function by function:

    - byte-level stores and loads ([*(uint16_t * )p = v], [*(uint32_t * )p]),
      on a little-endian host, and reads from a [std::string];
    - the [Client] object with its connection table [conns_], the free store
      holding the [ClientTCPSession] objects the table points to, the
      reassembly buffer [kcpInBuf_], and logs of what was handed to the KCP
      engine ([ikcp_send]) and to the UDP socket ([sendto]);
    - the member functions, as state transformers that may run into C++
      undefined behaviour (a read outside a string, a use of a destroyed
      session, an invalidated [std::map] iterator).

    Logging ([LOG], [DLOG]) and [assert] are not modelled: they are compiled
    out of a release build ([NDEBUG]) or only print. *)

From Stdlib Require Import NArith ZArith Lia.
From Stdlib Require Init.Byte Strings.Byte.
From stdpp Require Import base option list gmap sorting.
From Equations Require Import Equations.

Local Open Scope N_scope.

Abbreviation byte := Init.Byte.byte.

(** Linear arithmetic with division and remainder by constants. *)
Ltac nlia := zify; Z.to_euclidean_division_equations; lia.

(** ** Bytes and integer fields *)

Module Wire.

(** The value of a byte, [0 .. 255]. *)
Definition u8 (b : byte) : N := Byte.to_N b.

(** Bytes are compared through their values. *)
#[global] Instance byte_eq_dec : EqDecision byte.
Proof.
  intros a b. destruct (decide (Byte.to_N a = Byte.to_N b)) as [E|E].
  - left. apply (f_equal Byte.of_N) in E. rewrite !Byte.of_to_N in E.
    by injection E.
  - right. by intros ->.
Defined.

(** Truncation of an unsigned value to its low 8 bits. *)
Definition byte_of_N (n : N) : byte :=
  match Byte.of_N (n mod 256) with
  | Some b => b
  | None => Byte.x00
  end.

(** [*(uint16_t * )p = (uint16_t)v] on a little-endian host: the value is
    truncated to 16 bits, low byte first. *)
Definition store_u16 (v : N) : list byte :=
  [byte_of_N v; byte_of_N (v / 256)].

(** [*(uint16_t * )p] over the two bytes at [p]. *)
Definition load_u16 (b0 b1 : byte) : N := u8 b0 + 256 * u8 b1.

(** [*(uint32_t * )p = v]. *)
Definition store_u32 (v : N) : list byte :=
  [byte_of_N v; byte_of_N (v / 256); byte_of_N (v / 65536);
   byte_of_N (v / 16777216)].

(** [*(uint32_t * )p] over the four bytes at [p]. *)
Definition load_u32 (b0 b1 b2 b3 : byte) : N :=
  u8 b0 + 256 * u8 b1 + 65536 * u8 b2 + 16777216 * u8 b3.

(** Unsigned wrap-around of [uint16_t], [uint32_t] and [size_t]. *)
Definition wrap16 (n : N) : N := n mod 65536.
Definition wrap32 (n : N) : N := n mod 4294967296.
Definition size_t_modulus : N := 18446744073709551616.

(** [a - b] on [size_t]. *)
Definition size_t_sub (a b : N) : N :=
  (a + size_t_modulus - b mod size_t_modulus) mod size_t_modulus.

(** The array behind a [std::string]: its characters followed by the
    terminating zero ([data()[size()]] is readable since C++11). *)
Definition c_str (s : list byte) : list byte := s ++ [Byte.x00].

(** Reading [len] bytes at offset [off] of an array; [None] when the read
    leaves the array. *)
Definition mem_read (a : list byte) (off len : N) : option (list byte) :=
  if off + len <=? N.of_nat (length a)
  then Some (take (N.to_nat len) (drop (N.to_nat off) a))
  else None.

(** [*(uint8_t * )(s.data() + off)]. *)
Definition string_u8_at (s : list byte) (off : N) : option N :=
  match mem_read (c_str s) off 1 with
  | Some [b] => Some (u8 b)
  | _ => None
  end.

(** [*(uint16_t * )(s.data() + off)]. *)
Definition string_u16_at (s : list byte) (off : N) : option N :=
  match mem_read (c_str s) off 2 with
  | Some [b0; b1] => Some (load_u16 b0 b1)
  | _ => None
  end.

End Wire.

Import Wire.

(** ** Outcomes of a member function

    [UB] stands for C++ undefined behaviour: nothing can be said about the
    program from there on. *)

Inductive outcome (A : Type) : Type :=
| Ret (a : A)
| UB.
Arguments Ret {A} a.
Arguments UB {A}.

#[global] Instance outcome_ret : MRet outcome := fun _ a => Ret a.
#[global] Instance outcome_bind : MBind outcome := fun _ _ f m =>
  match m with
  | Ret a => f a
  | UB => UB
  end.

(** ** Protocol constants

    [Client.h] is not part of the sources at hand; the three constants it
    defines are taken as the comments of [Client.cc] and the frame tables of
    the specification give them. *)

(** Modelled from the spec: [KCP_MSG_CONNIDX_NONE] of the missing [Client.h],
    the reserved connection index of control frames
    ([| len(2) | 0x0000(2) | ...]). *)
Definition KCP_MSG_CONNIDX_NONE : N := 0.

(** Modelled from the spec: [KCP_MSG_TYPE_CLOSE_CONN] of the missing
    [Client.h], control type [0x01]. *)
Definition KCP_MSG_TYPE_CLOSE_CONN : N := 1.

(** Modelled from the spec: [KCP_MSG_TYPE_KEEPALIVE] of the missing
    [Client.h], control type [0x02]. *)
Definition KCP_MSG_TYPE_KEEPALIVE : N := 2.

Definition UINT16_MAX : N := 65535.

(** ** The objects *)

(** Addresses of [ClientTCPSession] objects on the free store. *)
Abbreviation ptr := positive.

(** A [ClientTCPSession]: its index, its socket, the timeouts installed on
    its bufferevent ([None]: no timeout) and the bytes written to the
    bufferevent's output buffer so far. *)
Record ClientTCPSession : Type := mkSession {
  connIdx_ : N;
  sess_fd : Z;
  bevReadTimeout : option Z;
  bevWriteTimeout : option Z;
  bevOutput : list byte
}.

(** What the event loop holds for the client: whether the listener accepts,
    the exit timer armed by [stop] (its delay in seconds), whether
    [event_base_loopexit] or [event_base_loopbreak] was called, and whether
    [kcpUpdateTimer_] points to a timer: the constructor leaves it null and
    [setup] creates the timer only after the handshake loop. *)
Record EventBase : Type := mkEventBase {
  listenerEnabled : bool;
  exitEvTimer_ : option Z;
  loopExit : bool;
  loopBreak : bool;
  kcpUpdateTimer_ : bool
}.

(** The [Client] object, together with what its member functions reach:
    - [conns_] maps a connection index to the address of its session;
    - [sessions] is the free store of session objects, [sessionsNext] the
      next address [new] hands out;
    - [kcpSent] lists the messages handed to [ikcp_send], oldest first;
    - [udpSent] lists the raw datagrams handed to [sendto] by the handshake;
    - [static_connIdx] and [static_startTime] are the function-local statics
      of [listenerCallback] and [checkInitKCP]. *)
Record Client : Type := mkClient {
  conns_ : gmap N ptr;
  sessions : gmap ptr ClientTCPSession;
  sessionsNext : ptr;
  kcpInBuf_ : list byte;
  kcpSent : list (list byte);
  udpSent : list (list byte);
  running_ : bool;
  isInitKCPConv_ : bool;
  kcpConv_ : N;
  tcpReadTimeout_ : Z;
  tcpWriteTimeout_ : Z;
  base_ : EventBase;
  static_connIdx : N;
  static_startTime : option Z
}.

Definition set_conns (v : gmap N ptr) (c : Client) : Client :=
  mkClient v (sessions c) (sessionsNext c) (kcpInBuf_ c) (kcpSent c)
    (udpSent c) (running_ c) (isInitKCPConv_ c) (kcpConv_ c)
    (tcpReadTimeout_ c) (tcpWriteTimeout_ c) (base_ c) (static_connIdx c)
    (static_startTime c).

Definition set_sessions (v : gmap ptr ClientTCPSession) (c : Client) : Client :=
  mkClient (conns_ c) v (sessionsNext c) (kcpInBuf_ c) (kcpSent c)
    (udpSent c) (running_ c) (isInitKCPConv_ c) (kcpConv_ c)
    (tcpReadTimeout_ c) (tcpWriteTimeout_ c) (base_ c) (static_connIdx c)
    (static_startTime c).

Definition set_sessionsNext (v : ptr) (c : Client) : Client :=
  mkClient (conns_ c) (sessions c) v (kcpInBuf_ c) (kcpSent c)
    (udpSent c) (running_ c) (isInitKCPConv_ c) (kcpConv_ c)
    (tcpReadTimeout_ c) (tcpWriteTimeout_ c) (base_ c) (static_connIdx c)
    (static_startTime c).

Definition set_kcpInBuf (v : list byte) (c : Client) : Client :=
  mkClient (conns_ c) (sessions c) (sessionsNext c) v (kcpSent c)
    (udpSent c) (running_ c) (isInitKCPConv_ c) (kcpConv_ c)
    (tcpReadTimeout_ c) (tcpWriteTimeout_ c) (base_ c) (static_connIdx c)
    (static_startTime c).

Definition set_kcpSent (v : list (list byte)) (c : Client) : Client :=
  mkClient (conns_ c) (sessions c) (sessionsNext c) (kcpInBuf_ c) v
    (udpSent c) (running_ c) (isInitKCPConv_ c) (kcpConv_ c)
    (tcpReadTimeout_ c) (tcpWriteTimeout_ c) (base_ c) (static_connIdx c)
    (static_startTime c).

Definition set_udpSent (v : list (list byte)) (c : Client) : Client :=
  mkClient (conns_ c) (sessions c) (sessionsNext c) (kcpInBuf_ c) (kcpSent c)
    v (running_ c) (isInitKCPConv_ c) (kcpConv_ c)
    (tcpReadTimeout_ c) (tcpWriteTimeout_ c) (base_ c) (static_connIdx c)
    (static_startTime c).

Definition set_running (v : bool) (c : Client) : Client :=
  mkClient (conns_ c) (sessions c) (sessionsNext c) (kcpInBuf_ c) (kcpSent c)
    (udpSent c) v (isInitKCPConv_ c) (kcpConv_ c)
    (tcpReadTimeout_ c) (tcpWriteTimeout_ c) (base_ c) (static_connIdx c)
    (static_startTime c).

Definition set_isInitKCPConv (v : bool) (c : Client) : Client :=
  mkClient (conns_ c) (sessions c) (sessionsNext c) (kcpInBuf_ c) (kcpSent c)
    (udpSent c) (running_ c) v (kcpConv_ c)
    (tcpReadTimeout_ c) (tcpWriteTimeout_ c) (base_ c) (static_connIdx c)
    (static_startTime c).

Definition set_base (v : EventBase) (c : Client) : Client :=
  mkClient (conns_ c) (sessions c) (sessionsNext c) (kcpInBuf_ c) (kcpSent c)
    (udpSent c) (running_ c) (isInitKCPConv_ c) (kcpConv_ c)
    (tcpReadTimeout_ c) (tcpWriteTimeout_ c) v (static_connIdx c)
    (static_startTime c).

Definition set_static_connIdx (v : N) (c : Client) : Client :=
  mkClient (conns_ c) (sessions c) (sessionsNext c) (kcpInBuf_ c) (kcpSent c)
    (udpSent c) (running_ c) (isInitKCPConv_ c) (kcpConv_ c)
    (tcpReadTimeout_ c) (tcpWriteTimeout_ c) (base_ c) v
    (static_startTime c).

Definition set_static_startTime (v : option Z) (c : Client) : Client :=
  mkClient (conns_ c) (sessions c) (sessionsNext c) (kcpInBuf_ c) (kcpSent c)
    (udpSent c) (running_ c) (isInitKCPConv_ c) (kcpConv_ c)
    (tcpReadTimeout_ c) (tcpWriteTimeout_ c) (base_ c) (static_connIdx c) v.

(** The state the constructor leaves, for conversation id [conv] (the
    wall-clock second at start-up) and the two configured timeouts; the
    statics hold their initialisers ([connIdx = 1u], [startTime] not yet
    set). *)
Definition Client_new (conv : N) (rto wto : Z) : Client :=
  mkClient ∅ ∅ 1%positive [] [] [] true false conv rto wto
    (mkEventBase false None false false false) 1 None.

(** ** Sending through the KCP engine *)

(** [Client::sendKcpMsg]: the message is handed to [ikcp_send], which queues
    it on the reliable stream (a negative result, which the source treats as
    fatal, does not arise for messages of at most 65535 bytes), and the
    update timer is re-armed. *)
Definition sendKcpMsg (msg : list byte) (c : Client) : Client :=
  set_kcpSent (kcpSent c ++ [msg]) c.

(** The seven bytes [Client::sendKcpCloseMsg] builds:
    [| len(2) | 0x0000(2) | 0x01 | connIdx(2) |]. *)
Definition kcpCloseMsg (connIdx : N) : list byte :=
  store_u16 (2 + 2 + 1 + 2) ++ store_u16 KCP_MSG_CONNIDX_NONE
    ++ [byte_of_N KCP_MSG_TYPE_CLOSE_CONN] ++ store_u16 connIdx.

(** [Client::sendKcpCloseMsg]. *)
Definition sendKcpCloseMsg (connIdx : N) (c : Client) : Client :=
  sendKcpMsg (kcpCloseMsg connIdx) c.

(** [Client::kcpKeepAlive]: [| len(2) | 0x0000(2) | 0x02(1) |]. *)
Definition kcpKeepAlive (c : Client) : Client :=
  sendKcpMsg (store_u16 5 ++ store_u16 KCP_MSG_CONNIDX_NONE
                ++ [byte_of_N KCP_MSG_TYPE_KEEPALIVE]) c.

(** ** The connection table *)

(** [ClientTCPSession::setTimeout]: a timeout is installed for a direction
    only when its value is positive. *)
Definition setTimeout (readTimeout writeTimeout : Z) (s : ClientTCPSession)
  : ClientTCPSession :=
  mkSession (connIdx_ s) (sess_fd s)
    (if (0 <? readTimeout)%Z then Some readTimeout else None)
    (if (0 <? writeTimeout)%Z then Some writeTimeout else None)
    (bevOutput s).

(** [std::map::insert] of a pair: an existing key keeps its value. *)
Definition map_insert_pair (k : N) (v : ptr) (m : gmap N ptr) : gmap N ptr :=
  match m !! k with
  | Some _ => m
  | None => <[k := v]> m
  end.

(** [Client::addConnection]. *)
Definition addConnection (session : ptr) (c : Client) : outcome Client :=
  match sessions c !! session with
  | None => UB
  | Some s =>
      let s' := setTimeout (tcpReadTimeout_ c) (tcpWriteTimeout_ c) s in
      let c1 := set_sessions (<[session := s']> (sessions c)) c in
      Ret (set_conns (map_insert_pair (connIdx_ s') session (conns_ c1)) c1)
  end.

(** [Client::listenerCallback], for an accepted socket [fd]: the static
    counter is incremented as a [uint16_t], a session is allocated with the
    new value and added. The result carries the index given to the session. *)
Definition listenerCallback (fd : Z) (c : Client) : outcome (N * Client) :=
  let connIdx := wrap16 (static_connIdx c + 1) in
  let c1 := set_static_connIdx connIdx c in
  let csession := sessionsNext c1 in
  let c2 := set_sessionsNext (Pos.succ csession)
              (set_sessions (<[csession := mkSession connIdx fd None None []]>
                               (sessions c1)) c1) in
  c3 ← addConnection csession c2;
  Ret (connIdx, c3).

(** [Client::removeConnection]: the close message, if asked for, carries the
    index read from the session object; the index is erased from the table
    and the object is deleted. Reading a destroyed session is undefined. *)
Definition removeConnection (session : ptr) (isNeedSendCloseMsg : bool)
    (c : Client) : outcome Client :=
  match sessions c !! session with
  | None => UB
  | Some s =>
      let c1 := if isNeedSendCloseMsg then sendKcpCloseMsg (connIdx_ s) c
                else c in
      Ret (set_sessions (delete session (sessions c1))
             (set_conns (delete (connIdx_ s) (conns_ c1)) c1))
  end.

(** [Client::cb_tcpEvent]: EOF, error and timeout all end in the removal of
    the session with a close message. *)
Definition cb_tcpEvent (csession : ptr) (c : Client) : outcome Client :=
  removeConnection csession true c.

(** ** Inbound frames *)

(** [ClientTCPSession::sendData] on the session at [session]: [len] bytes at
    offset [off] of the string [data] go to the bufferevent's output. The
    session has to be alive and the bytes have to lie inside the string. *)
Definition sendData (session : ptr) (data : list byte) (off len : N)
    (c : Client) : outcome Client :=
  match sessions c !! session with
  | None => UB
  | Some s =>
      match mem_read (c_str data) off len with
      | None => UB
      | Some bs =>
          Ret (set_sessions
                 (<[session := mkSession (connIdx_ s) (sess_fd s)
                                 (bevReadTimeout s) (bevWriteTimeout s)
                                 (bevOutput s ++ bs)]> (sessions c)) c)
      end
  end.

(** [Client::handleKcpMsg]; the source passes [data] as a pointer into the
    message, here the message and an offset. Forming the pointer is
    harmless; only what is read through it has to lie inside the string. *)
Definition handleKcpMsg (connIdx : N) (data : list byte) (off len : N)
    (c : Client) : outcome Client :=
  match conns_ c !! connIdx with
  | None => Ret (sendKcpCloseMsg connIdx c)
  | Some csession => sendData csession data off len c
  end.

(** [Client::handleKcpMsg_closeConn]. *)
Definition handleKcpMsg_closeConn (msg : list byte) (c : Client)
  : outcome Client :=
  match string_u16_at msg 5 with
  | None => UB
  | Some connIdx =>
      match conns_ c !! connIdx with
      | None => Ret c
      | Some session => removeConnection session false c
      end
  end.

(** The first half of [Client::readKcpMsg] (up to [evbuffer_remove]): with
    fewer than four bytes buffered, or fewer than the length field says,
    nothing is taken; otherwise the index, the message of [msglen] bytes and
    the rest of the buffer. *)
Definition readKcpMsg_frame (buf : list byte)
  : option (N * list byte * list byte) :=
  let evBufLen := N.of_nat (length buf) in
  if evBufLen <? 4 then None
  else
    match buf with
    | b0 :: b1 :: b2 :: b3 :: _ =>
        let msglen := load_u16 b0 b1 in
        if evBufLen <? msglen then None
        else
          let connIdx := load_u16 b2 b3 in
          Some (connIdx, take (N.to_nat msglen) buf,
                drop (N.to_nat msglen) buf)
    | _ => None
    end.

(** The second half of [Client::readKcpMsg]: dispatch on the index. *)
Definition readKcpMsg_dispatch (connIdx : N) (msg : list byte) (c : Client)
  : outcome Client :=
  if connIdx =? KCP_MSG_CONNIDX_NONE then
    match string_u8_at msg 4 with
    | None => UB
    | Some type =>
        if type =? KCP_MSG_TYPE_CLOSE_CONN then handleKcpMsg_closeConn msg c
        else Ret c
    end
  else
    handleKcpMsg connIdx msg 4 (size_t_sub (N.of_nat (length msg)) 4) c.

(** [Client::readKcpMsg]: [false] when a whole message is not buffered yet,
    [true] after a message was taken and dispatched. *)
Definition readKcpMsg (c : Client) : outcome (bool * Client) :=
  match readKcpMsg_frame (kcpInBuf_ c) with
  | None => Ret (false, c)
  | Some (connIdx, msg, rest) =>
      c' ← readKcpMsg_dispatch connIdx msg (set_kcpInBuf rest c);
      Ret (true, c')
  end.

(** The loop [while (readKcpMsg()) {}] of [handleIncomingUDPMesasge], cut off
    after [fuel] calls: [None] when the loop is still running then. *)
Fixpoint readKcpMsg_loop (fuel : nat) (c : Client) : option (outcome Client) :=
  match fuel with
  | O => None
  | S fuel' =>
      match readKcpMsg c with
      | UB => Some UB
      | Ret (false, c') => Some (Ret c')
      | Ret (true, c') => readKcpMsg_loop fuel' c'
      end
  end.

(** ** Outbound data: chunking of TCP input *)

(** [maxMsgLen] of [handleIncomingTCPMesasge]. *)
Definition maxMsgLen : N := UINT16_MAX - 4.

(** The message one round of the loop in [handleIncomingTCPMesasge] builds
    for a slice [chunk] of the input: [| len(2) | connIdx(2) | ... |], where
    [len] is the size of the whole message cast to [uint16_t]. *)
Definition kcpDataMsg (connIdx : N) (chunk : list byte) : list byte :=
  store_u16 (4 + N.of_nat (length chunk)) ++ store_u16 connIdx ++ chunk.

(** The size of the next slice: [std::min(maxMsgLen, msg.size())]. *)
Definition chunkLen (msg : list byte) : nat :=
  N.to_nat (N.min maxMsgLen (N.of_nat (length msg))).

(** [Client::handleIncomingTCPMesasge]: while the input is not empty, its
    first [chunkLen] bytes are sent as one data message and erased. *)
Equations? handleIncomingTCPMesasge (session : ptr) (msg : list byte)
    (c : Client) : outcome Client by wf (length msg) lt :=
  handleIncomingTCPMesasge session [] c := Ret c;
  handleIncomingTCPMesasge session (b :: bs) c with sessions c !! session := {
    | None := UB;
    | Some s :=
        handleIncomingTCPMesasge session (drop (chunkLen (b :: bs)) (b :: bs))
          (sendKcpMsg (kcpDataMsg (connIdx_ s)
                         (take (chunkLen (b :: bs)) (b :: bs))) c) }.
Proof.
  rewrite length_drop. unfold chunkLen, maxMsgLen, UINT16_MAX. simpl length. lia.
Qed.

(** [ClientTCPSession::recvData]: everything readable is drained and handed
    to the client. *)
Definition recvData (session : ptr) (readable : list byte) (c : Client)
  : outcome Client :=
  handleIncomingTCPMesasge session readable c.

(** ** Handshake *)

(** The twelve bytes [Client::sendInitKCPConvPkg] builds:
    [0], [kcpConv_] and [kcpConv_ + 1] as [uint32_t]. *)
Definition initKCPConvPkg (conv : N) : list byte :=
  store_u32 0 ++ store_u32 conv ++ store_u32 (wrap32 (conv + 1)).

(** [Client::sendInitKCPConvPkg]: the datagram goes out raw with [sendto]. *)
Definition sendInitKCPConvPkg (c : Client) : Client :=
  set_udpSent (udpSent c ++ [initKCPConvPkg (kcpConv_ c)]) c.

(** [Client::exitLoop]. *)
Definition exitLoop (c : Client) : Client :=
  set_base (mkEventBase (listenerEnabled (base_ c)) (exitEvTimer_ (base_ c))
              true (loopBreak (base_ c)) (kcpUpdateTimer_ (base_ c))) c.

(** [Client::checkInitKCP], run by the one-second timer of [setup] when the
    clock reads [now]: the static [startTime] is initialised by the first
    call. *)
Definition checkInitKCP (now : Z) (c : Client) : Client :=
  let startTime := default now (static_startTime c) in
  let c1 := set_static_startTime (Some startTime) c in
  if isInitKCPConv_ c1 then
    set_base (mkEventBase (listenerEnabled (base_ c1))
                (exitEvTimer_ (base_ c1)) (loopExit (base_ c1)) true
                (kcpUpdateTimer_ (base_ c1))) c1
  else if (startTime + 10 <? now)%Z then
    exitLoop (set_running false c1)
  else
    sendInitKCPConvPkg c1.

(** [Client::recvInitKCPConvPkg] on the twelve bytes at [p]. *)
Definition recvInitKCPConvPkg (p : list byte) (c : Client)
  : outcome (bool * Client) :=
  match p with
  | b0 :: b1 :: b2 :: b3 :: b4 :: b5 :: b6 :: b7 :: b8 :: b9 :: b10 :: b11 :: _ =>
      if (load_u32 b0 b1 b2 b3 =? 0)
         && (load_u32 b4 b5 b6 b7 =? kcpConv_ c)
         && (load_u32 b8 b9 b10 b11 =? wrap32 (kcpConv_ c + 1))
      then Ret (true, set_isInitKCPConv true c)
      else Ret (false, c)
  | _ => UB
  end.

(** What the KCP engine answers to one datagram: the result of [ikcp_input]
    and the pieces [ikcp_recv] then returns, one per call, before it reports
    that nothing is left. The engine is a library outside this file. *)
Record KcpReply : Type := mkKcpReply {
  ikcp_input_res : Z;
  ikcp_recv_data : list (list byte)
}.

(** [Client::kcpUpdateManually]: the update timer is taken off the event
    loop, the engine is updated and the timer is armed again. As long as
    [kcpUpdateTimer_] is null, [event_del] is handed a null pointer. *)
Definition kcpUpdateManually (c : Client) : outcome Client :=
  if kcpUpdateTimer_ (base_ c) then Ret c else UB.

(** [Client::handleIncomingUDPMesasge] on a datagram [inData]; the decode
    loop is cut off after [fuel] calls of [readKcpMsg]. A datagram that is
    not the echo of the handshake and that the engine accepts ends in
    [kcpUpdateManually]: there, at the latest, the callback fails when it
    runs before [setup] has created the update timer. *)
Definition handleIncomingUDPMesasge (inData : list byte) (kcp : KcpReply)
    (fuel : nat) (c : Client) : option (outcome Client) :=
  let handshake :=
    if N.of_nat (length inData) =? 12 then recvInitKCPConvPkg inData c
    else Ret (false, c) in
  match handshake with
  | UB => Some UB
  | Ret (true, c') => Some (Ret c')
  | Ret (false, c') =>
      if (ikcp_input_res kcp <? 0)%Z then Some (Ret c')
      else
        match
          readKcpMsg_loop fuel
            (set_kcpInBuf (kcpInBuf_ c' ++ concat (ikcp_recv_data kcp)) c')
        with
        | Some (Ret c'') => Some (kcpUpdateManually c'')
        | Some UB => Some UB
        | None => None
        end
  end.

(** ** Shutdown *)

(** The entries of a [std::map] in iteration order, by ascending key. *)
Definition entry_le (x y : N * ptr) : Prop := x.1 <= y.1.

#[global] Instance entry_le_dec : RelDecision entry_le.
Proof. intros x y. unfold entry_le. apply _. Defined.

Definition map_entries (m : gmap N ptr) : list (N * ptr) :=
  merge_sort entry_le (map_to_list m).

(** The loop [for (auto conn : conns_) removeConnection(conn.second, true)]
    of [Client::stop]. [todo] lists the entries the iterator has still to
    pass, as they were when the loop began; the body never inserts. An
    entry erased before the iterator reached it is not visited. The loop
    iterator stays on the node of [conn] while the body runs and is
    incremented afterwards; [std::map::erase] invalidates the iterators of
    the erased node, so incrementing is undefined once the body has erased
    the key of [conn]. *)
Fixpoint stop_loop (todo : list (N * ptr)) (c : Client) : outcome Client :=
  match todo with
  | [] => Ret c
  | (k, _) :: todo' =>
      match conns_ c !! k with
      | None => stop_loop todo' c
      | Some session =>
          c' ← removeConnection session true c;
          match conns_ c' !! k with
          | None => UB
          | Some _ => stop_loop todo' c'
          end
      end
  end.

(** [Client::stop]. *)
Definition stop (c : Client) : outcome Client :=
  if negb (running_ c) then Ret c
  else
    let c1 := set_running false c in
    let c2 := set_base (mkEventBase false (exitEvTimer_ (base_ c1))
                          (loopExit (base_ c1)) (loopBreak (base_ c1))
                          (kcpUpdateTimer_ (base_ c1))) c1 in
    c3 ← stop_loop (map_entries (conns_ c2)) c2;
    Ret (set_base (mkEventBase (listenerEnabled (base_ c3)) (Some 3%Z)
                     (loopExit (base_ c3)) (loopBreak (base_ c3))
                     (kcpUpdateTimer_ (base_ c3))) c3).

(** [Client::cb_exitLoop], run when the exit timer fires. *)
Definition cb_exitLoop (c : Client) : Client := exitLoop c.

(** The end of [Client::setup], after the handshake, when the listen
    address is valid and can be bound: the listener is created, and so are
    the update timer and the keep-alive timer. *)
Definition setup_listen (c : Client) : Client :=
  set_base (mkEventBase true (exitEvTimer_ (base_ c)) (loopExit (base_ c))
              (loopBreak (base_ c)) true) c.


(** * Predicates on states and buffers *)

(** Every entry of the connection table points to a session object that is
    alive and carries the entry's index. *)
Definition table_live (c : Client) : Prop :=
  forall k p, conns_ c !! k = Some p ->
    exists s, sessions c !! p = Some s /\ connIdx_ s = k.

(** Every session object lies below the next address [new] hands out. *)
Definition heap_fresh (c : Client) : Prop :=
  forall p, is_Some (sessions c !! p) -> (p < sessionsNext c)%positive.

(** The invariant of the connection table and the free store. *)
Definition Client_wf (c : Client) : Prop := table_live c /\ heap_fresh c.

(** The length and index fields at the head of the reassembly buffer. *)
Definition frame_len (buf : list byte) : N :=
  match buf with
  | b0 :: b1 :: _ => load_u16 b0 b1
  | _ => 0
  end.

Definition frame_idx (buf : list byte) : N :=
  match buf with
  | _ :: _ :: b2 :: b3 :: _ => load_u16 b2 b3
  | _ => 0
  end.

(** At least four bytes are buffered, and at least as many as the length
    field says. *)
Definition frame_available (buf : list byte) : Prop :=
  4 <= N.of_nat (length buf) /\ frame_len buf <= N.of_nat (length buf).

#[global] Instance frame_available_dec buf : Decision (frame_available buf).
Proof. unfold frame_available. apply _. Defined.

(** The message holds the fields its dispatch reads: the four-byte header,
    and the index to close when it is a close message. *)
Definition frame_fields_present (connIdx : N) (msg : list byte) : Prop :=
  4 <= N.of_nat (length msg)
  /\ (connIdx = KCP_MSG_CONNIDX_NONE ->
      string_u8_at msg 4 = Some KCP_MSG_TYPE_CLOSE_CONN ->
      7 <= N.of_nat (length msg)).

(** None of the first [n] messages framed in the buffer has a length field
    of 0. *)
Fixpoint no_empty_frame (n : nat) (buf : list byte) : Prop :=
  match n with
  | O => True
  | S n' =>
      frame_available buf ->
      0 < frame_len buf
      /\ no_empty_frame n' (drop (N.to_nat (frame_len buf)) buf)
  end.

(** * Runs and example states *)

(** One connection is accepted on [fd] and then ends ([cb_tcpEvent] on the
    session just created). *)
Definition accept_then_close (fd : Z) (c : Client) : outcome Client :=
  ic ← listenerCallback fd c;
  cb_tcpEvent (sessionsNext c) ic.2.

(** [n] connections, one after the other. *)
Definition accept_then_close_n (n : N) (fd : Z) (c : Client) : outcome Client :=
  N.iter n (fun r => r ≫= accept_then_close fd) (Ret c).

(** The conversation id [0x12345678]. *)
Definition example_conv : N := 305419896.

(** A client after a successful [setup] that began at second 0: the first
    handshake datagram has been sent and echoed, the first timer run has
    broken the handshake loop, the listener accepts, the update timer
    exists, no connection yet. *)
Definition Client_ready (conv : N) (rto wto : Z) : Client :=
  mkClient ∅ ∅ 1%positive [] [] [initKCPConvPkg conv] true true conv rto wto
    (mkEventBase true None false true true) 1 (Some 0%Z).

(** A session as [listenerCallback] and [addConnection] leave it, without
    timeouts. *)
Definition session_at (idx : N) (fd : Z) : ClientTCPSession :=
  mkSession idx fd None None [].

(** A client with the indices 2, 3 and 5 in its table: four connections
    were accepted and the server closed the one with index 4. *)
Definition client_235 : Client :=
  mkClient
    (list_to_map [(2, 1%positive); (3, 2%positive); (5, 4%positive)])
    (list_to_map [(1%positive, session_at 2 7); (2%positive, session_at 3 7);
                  (4%positive, session_at 5 7)])
    5%positive [] [] [initKCPConvPkg example_conv] true true example_conv 0 0
    (mkEventBase true None false true true) 5 (Some 0%Z).

(** The bytes of [hello]. *)
Definition hello : list byte :=
  [Byte.x68; Byte.x65; Byte.x6c; Byte.x6c; Byte.x6f].

(** A client whose reassembly buffer holds [00 00 01 00]: a length field of
    0 and the index 1, which is not in the table. *)
Definition client_len0 : Client :=
  set_kcpInBuf [Byte.x00; Byte.x00; Byte.x01; Byte.x00]
    (Client_ready example_conv 0 0).

(** A client whose reassembly buffer holds [03 00 01 00]: a length field of
    3 and the index 1, which is not in the table. *)
Definition client_len3 : Client :=
  set_kcpInBuf [Byte.x03; Byte.x00; Byte.x01; Byte.x00]
    (Client_ready example_conv 0 0).

(** A client whose reassembly buffer holds [05 00 00 00 01]: a control
    message of five bytes with type [0x01], cut off before the index a close
    message carries. *)
Definition client_close5 : Client :=
  set_kcpInBuf [Byte.x05; Byte.x00; Byte.x00; Byte.x00; Byte.x01]
    (Client_ready example_conv 0 0).

(** A client that has waited for the echo since second 100. *)
Definition client_waiting : Client :=
  set_static_startTime (Some 100%Z) (Client_new example_conv 0 0).

(** [client_235] with one data message for index 2 carrying [hello] in its
    reassembly buffer. *)
Definition client_hello_in : Client :=
  set_kcpInBuf (kcpDataMsg 2 hello) client_235.

(** [client_235] with a close message for index 3 in its reassembly
    buffer. *)
Definition client_close3_in : Client :=
  set_kcpInBuf (kcpCloseMsg 3 ++ []) client_235.

(** [client_235] with only the first three bytes of a message buffered. *)
Definition client_partial_in : Client :=
  set_kcpInBuf [Byte.x09; Byte.x00; Byte.x02] client_235.

(** * Reachable states

    The states a client goes through: it is constructed, and then the event
    loop runs its callbacks one at a time. The KCP engine delivers stream
    bytes into the reassembly buffer; every other step is a member function
    that returns, or the end of [setup]. *)
Inductive reachable : Client -> Prop :=
| reach_new conv rto wto :
    reachable (Client_new conv rto wto)
| reach_accept fd c idx c' :
    reachable c -> listenerCallback fd c = Ret (idx, c') -> reachable c'
| reach_tcp_read session readable c c' :
    reachable c -> recvData session readable c = Ret c' -> reachable c'
| reach_tcp_event session c c' :
    reachable c -> cb_tcpEvent session c = Ret c' -> reachable c'
| reach_kcp_recv data c :
    reachable c -> reachable (set_kcpInBuf (kcpInBuf_ c ++ data) c)
| reach_readKcpMsg c r c' :
    reachable c -> readKcpMsg c = Ret (r, c') -> reachable c'
| reach_handshake p c r c' :
    reachable c -> recvInitKCPConvPkg p c = Ret (r, c') -> reachable c'
| reach_checkInitKCP now c :
    reachable c -> reachable (checkInitKCP now c)
| reach_sendInit c :
    reachable c -> reachable (sendInitKCPConvPkg c)
| reach_keepAlive c :
    reachable c -> reachable (kcpKeepAlive c)
| reach_stop c c' :
    reachable c -> stop c = Ret c' -> reachable c'
| reach_exitLoop c :
    reachable c -> reachable (cb_exitLoop c)
| reach_setup_listen c :
    reachable c -> reachable (setup_listen c).

(** * The event loop, one callback at a time *)

(** One callback of the event loop that returns, taking the client from one
    state to the next (the steps of [reachable]). *)
Inductive callback_step : Client -> Client -> Prop :=
| step_accept fd c idx c' :
    listenerCallback fd c = Ret (idx, c') -> callback_step c c'
| step_tcp_read session readable c c' :
    recvData session readable c = Ret c' -> callback_step c c'
| step_tcp_event session c c' :
    cb_tcpEvent session c = Ret c' -> callback_step c c'
| step_kcp_recv data c :
    callback_step c (set_kcpInBuf (kcpInBuf_ c ++ data) c)
| step_readKcpMsg c r c' :
    readKcpMsg c = Ret (r, c') -> callback_step c c'
| step_handshake p c r c' :
    recvInitKCPConvPkg p c = Ret (r, c') -> callback_step c c'
| step_checkInitKCP now c :
    callback_step c (checkInitKCP now c)
| step_sendInit c :
    callback_step c (sendInitKCPConvPkg c)
| step_keepAlive c :
    callback_step c (kcpKeepAlive c)
| step_stop c c' :
    stop c = Ret c' -> callback_step c c'
| step_exitLoop c :
    callback_step c (cb_exitLoop c)
| step_setup_listen c :
    callback_step c (setup_listen c).

(** A message whose length field is its own size, at least the four bytes
    of the header: the decoder takes exactly this message. *)
Definition self_delimiting (f : list byte) : Prop :=
  4 <= N.of_nat (length f) /\ frame_len f = N.of_nat (length f).

(** From [c] to [c'] the conversation id is kept and both outbound logs only
    grow: by self-delimiting messages on the KCP stream, by handshake
    datagrams on the socket. *)
Definition logs_extended (c c' : Client) : Prop :=
  kcpConv_ c' = kcpConv_ c
  /\ (exists fs, kcpSent c' = kcpSent c ++ fs /\ Forall self_delimiting fs)
  /\ (exists ds, udpSent c' = udpSent c ++ ds
                 /\ Forall (fun d => d = initKCPConvPkg (kcpConv_ c)) ds).

(** [Client::cb_udpRead]: [recvfrom] failed ([None]) or returned a
    datagram, which goes to [handleIncomingUDPMesasge]. *)
Definition cb_udpRead (res : option (list byte)) (kcp : KcpReply) (fuel : nat)
    (c : Client) : option (outcome Client) :=
  match res with
  | None => Some (Ret c)
  | Some inData => handleIncomingUDPMesasge inData kcp fuel c
  end.

(** Connections accepted one after the other on the sockets [fds]; the
    result lists the indices they were given, in order. *)
Fixpoint accept_all (fds : list Z) (c : Client) : outcome (list N * Client) :=
  match fds with
  | [] => Ret ([], c)
  | fd :: fds' =>
      ic ← listenerCallback fd c;
      r ← accept_all fds' ic.2;
      Ret (ic.1 :: r.1, r.2)
  end.

(** ** The handshake block of [Client::setup] *)

(** What the event loop can run while [setup] waits for the echo: the
    one-second timer ([cb_initKCP], with the clock reading) or the UDP read
    event with a received datagram. *)
Inductive setup_event : Type :=
| SetupTimer (now : Z)
| SetupUdp (inData : list byte) (kcp : KcpReply) (fuel : nat).

(** [event_base_loopbreak] or [event_base_loopexit] was called. *)
Definition loop_stopped (c : Client) : bool :=
  loopBreak (base_ c) || loopExit (base_ c).

(** [event_base_dispatch] in [setup]: [evs] lists the callbacks the loop
    runs, in order, one per iteration; they are served until one of them
    stops the loop; [None] when the events at hand leave it running. *)
Fixpoint setup_dispatch (evs : list setup_event) (c : Client)
  : option (outcome Client) :=
  match evs with
  | [] => None
  | ev :: evs' =>
      match
        match ev with
        | SetupTimer now => Some (Ret (checkInitKCP now c))
        | SetupUdp inData kcp fuel => handleIncomingUDPMesasge inData kcp fuel c
        end
      with
      | Some (Ret c') =>
          if loop_stopped c' then Some (Ret c') else setup_dispatch evs' c'
      | Some UB => Some UB
      | None => None
      end
  end.

(** The block [init kcp conv] of [Client::setup]: the handshake datagram is
    sent, the loop runs until the timer callback stops it, and [setup] goes
    on only if [running_] still holds (the boolean of the result). *)
Definition setup_initKCP (evs : list setup_event) (c : Client)
  : option (outcome (bool * Client)) :=
  match setup_dispatch evs (sendInitKCPConvPkg c) with
  | Some (Ret c') => Some (Ret (running_ c', c'))
  | Some UB => Some UB
  | None => None
  end.

(** The state after [n] timer runs that each sent the handshake datagram,
    the first one at second [t0]. *)
Definition after_ticks (t0 : Z) (n : nat) (c : Client) : Client :=
  set_udpSent (udpSent c ++ replicate n (initKCPConvPkg (kcpConv_ c)))
    (set_static_startTime (Some t0) c).

(** The keep-alive message. *)
Definition kcpKeepAliveMsg : list byte :=
  store_u16 5 ++ store_u16 KCP_MSG_CONNIDX_NONE
    ++ [byte_of_N KCP_MSG_TYPE_KEEPALIVE].
(** * Properties *)

Ltac case_cmp :=
  match goal with
  | |- context [?a <? ?b] => destruct (N.ltb_spec a b)
  | |- context [?a <=? ?b] => destruct (N.leb_spec a b)
  | |- context [?a =? ?b] => destruct (N.eqb_spec a b)
  end.

(** Projections of updated states. *)
Ltac client_simpl :=
  cbn [conns_ sessions sessionsNext kcpInBuf_ kcpSent udpSent running_
       isInitKCPConv_ kcpConv_ tcpReadTimeout_ tcpWriteTimeout_ base_
       static_connIdx static_startTime
       set_conns set_sessions set_sessionsNext set_kcpInBuf set_kcpSent
       set_udpSent set_running set_isInitKCPConv set_base set_static_connIdx
       set_static_startTime sendKcpMsg sendKcpCloseMsg
       listenerEnabled exitEvTimer_ loopExit loopBreak kcpUpdateTimer_
       mbind outcome_bind mret outcome_ret] in *.

(** ** Stores and loads *)

Lemma u8_bound b : u8 b < 256.
Proof. unfold u8. pose proof (Byte.to_N_bounded b). lia. Qed.

Lemma u8_byte_of_N n : u8 (byte_of_N n) = n mod 256.
Proof.
  unfold u8, byte_of_N.
  destruct (Byte.of_N (n mod 256)) as [b|] eqn:E.
  - by apply Byte.to_of_N.
  - apply Byte.of_N_None_iff in E. nlia.
Qed.

Lemma byte_of_N_u8 b : byte_of_N (u8 b) = b.
Proof.
  unfold byte_of_N, u8. pose proof (Byte.to_N_bounded b).
  rewrite N.mod_small by lia. by rewrite Byte.of_to_N.
Qed.

Lemma u8_inj b c : u8 b = u8 c -> b = c.
Proof. intros E. rewrite <- (byte_of_N_u8 b), <- (byte_of_N_u8 c). by rewrite E. Qed.

Lemma load_store_u16 v : v < 65536 ->
  load_u16 (byte_of_N v) (byte_of_N (v / 256)) = v.
Proof. intros Hv. unfold load_u16. rewrite !u8_byte_of_N. nlia. Qed.

Lemma load_u16_bound b0 b1 : load_u16 b0 b1 < 65536.
Proof.
  unfold load_u16. pose proof (u8_bound b0). pose proof (u8_bound b1). lia.
Qed.

Lemma store_load_u16 b0 b1 : store_u16 (load_u16 b0 b1) = [b0; b1].
Proof.
  unfold store_u16, load_u16.
  pose proof (u8_bound b0). pose proof (u8_bound b1).
  f_equal; [|f_equal]; apply u8_inj; rewrite u8_byte_of_N; nlia.
Qed.

Lemma load_store_u32 v : v < 4294967296 ->
  load_u32 (byte_of_N v) (byte_of_N (v / 256)) (byte_of_N (v / 65536))
           (byte_of_N (v / 16777216)) = v.
Proof. intros Hv. unfold load_u32. rewrite !u8_byte_of_N. nlia. Qed.

Lemma store_load_u32 b0 b1 b2 b3 :
  store_u32 (load_u32 b0 b1 b2 b3) = [b0; b1; b2; b3].
Proof.
  unfold store_u32, load_u32.
  pose proof (u8_bound b0). pose proof (u8_bound b1).
  pose proof (u8_bound b2). pose proof (u8_bound b3).
  repeat f_equal; apply u8_inj; rewrite u8_byte_of_N; nlia.
Qed.

Lemma load_u32_bound b0 b1 b2 b3 : load_u32 b0 b1 b2 b3 < 4294967296.
Proof.
  unfold load_u32.
  pose proof (u8_bound b0). pose proof (u8_bound b1).
  pose proof (u8_bound b2). pose proof (u8_bound b3). lia.
Qed.

(** ** Framing of data messages *)

Lemma readKcpMsg_frame_data (i : N) (b rest : list byte) :
  i < 65536 -> N.of_nat (length b) <= 65531 ->
  readKcpMsg_frame (kcpDataMsg i b ++ rest) = Some (i, kcpDataMsg i b, rest).
Proof.
  intros Hi Hb. unfold kcpDataMsg, store_u16, readKcpMsg_frame.
  cbn [app]. rewrite !load_store_u16 by lia.
  cbn [length]. rewrite length_app.
  case_cmp; [lia|]. case_cmp; [lia|].
  replace (N.to_nat (4 + N.of_nat (length b))) with (4 + length b)%nat by lia.
  cbn [take drop Nat.add].
  by rewrite take_app_length, drop_app_length.
Qed.

Lemma mem_read_payload (hdr b : list byte) :
  length hdr = 4%nat -> N.of_nat (length b) <= 65531 ->
  mem_read (c_str (hdr ++ b)) 4 (size_t_sub (N.of_nat (length (hdr ++ b))) 4)
  = Some b.
Proof.
  intros Hh Hb. unfold mem_read, c_str, size_t_sub, size_t_modulus.
  rewrite !length_app, Hh. cbn [length].
  replace ((N.of_nat (4 + length b) + 18446744073709551616
            - 4 mod 18446744073709551616) mod 18446744073709551616)
    with (N.of_nat (length b)) by nlia.
  case_cmp; [|lia].
  f_equal. rewrite <- app_assoc.
  replace (N.to_nat 4) with (length hdr) by lia.
  rewrite drop_app_length, Nat2N.id. apply take_app_length.
Qed.

Lemma kcpDataMsg_payload (i : N) (b : list byte) :
  N.of_nat (length b) <= 65531 ->
  mem_read (c_str (kcpDataMsg i b)) 4
           (size_t_sub (N.of_nat (length (kcpDataMsg i b))) 4) = Some b.
Proof.
  intros Hb. unfold kcpDataMsg. rewrite app_assoc.
  by apply mem_read_payload.
Qed.

Lemma drop4_kcpDataMsg (i : N) (ch : list byte) : drop 4 (kcpDataMsg i ch) = ch.
Proof. reflexivity. Qed.

(** ** Chunking *)

Lemma handleIncomingTCPMesasge_step p s msg c :
  sessions c !! p = Some s -> msg <> [] ->
  handleIncomingTCPMesasge p msg c =
  handleIncomingTCPMesasge p (drop (chunkLen msg) msg)
    (sendKcpMsg (kcpDataMsg (connIdx_ s) (take (chunkLen msg) msg)) c).
Proof.
  intros Hs Hm. destruct msg as [|b bs]; [done|].
  simp handleIncomingTCPMesasge. rewrite Hs. by simp handleIncomingTCPMesasge.
Qed.

Lemma chunkLen_bounds msg : msg <> [] ->
  (0 < chunkLen msg <= length msg)%nat /\ N.of_nat (chunkLen msg) <= 65531.
Proof.
  intros Hm. unfold chunkLen, maxMsgLen, UINT16_MAX.
  destruct msg; [done|]. cbn [length]. lia.
Qed.

(** An input that fits one message is sent as exactly that message. *)
Lemma handleIncomingTCPMesasge_one_chunk p s b c :
  sessions c !! p = Some s -> b <> [] -> N.of_nat (length b) <= 65531 ->
  handleIncomingTCPMesasge p b c = Ret (sendKcpMsg (kcpDataMsg (connIdx_ s) b) c).
Proof.
  intros Hs Hne Hb. rewrite (handleIncomingTCPMesasge_step p s) by done.
  assert (chunkLen b = length b) as ->.
  { unfold chunkLen, maxMsgLen, UINT16_MAX. lia. }
  rewrite drop_all, firstn_all. by simp handleIncomingTCPMesasge.
Qed.

(** C1. A data message built for a non-zero index [i] and at most 65531
    bytes [b], alone in the reassembly buffer, is decoded by [readKcpMsg] as
    the index [i] with payload [b], and the buffer is empty afterwards: the
    bytes [b] reach the session of [i] (or, when no session has index [i],
    a close message for [i] is sent), and the call reports success. The
    message is the one [handleIncomingTCPMesasge] sends for a non-empty
    input [b] of a session with index [i]. *)
Theorem data_frame_roundtrip (i : N) (b : list byte) (c : Client) :
  i <> 0 -> i < 65536 -> N.of_nat (length b) <= 65531 ->
  kcpInBuf_ c = kcpDataMsg i b ->
  readKcpMsg_frame (kcpInBuf_ c) = Some (i, kcpDataMsg i b, [])
  /\ mem_read (c_str (kcpDataMsg i b)) 4
              (size_t_sub (N.of_nat (length (kcpDataMsg i b))) 4) = Some b
  /\ (forall p s, conns_ c !! i = Some p -> sessions c !! p = Some s ->
        readKcpMsg c =
        Ret (true,
             set_sessions
               (<[p := mkSession (connIdx_ s) (sess_fd s) (bevReadTimeout s)
                         (bevWriteTimeout s) (bevOutput s ++ b)]> (sessions c))
               (set_kcpInBuf [] c)))
  /\ (conns_ c !! i = None ->
        readKcpMsg c = Ret (true, sendKcpCloseMsg i (set_kcpInBuf [] c)))
  /\ (forall p s c0, sessions c0 !! p = Some s -> connIdx_ s = i -> b <> [] ->
        handleIncomingTCPMesasge p b c0 = Ret (sendKcpMsg (kcpDataMsg i b) c0)).
Proof.
  intros Hi0 Hi Hb Hbuf.
  assert (readKcpMsg_frame (kcpInBuf_ c) = Some (i, kcpDataMsg i b, [])) as Hf.
  { rewrite Hbuf. rewrite <- (app_nil_r (kcpDataMsg i b)) at 1.
    by apply readKcpMsg_frame_data. }
  pose proof (kcpDataMsg_payload i b Hb) as Hpay.
  assert ((i =? KCP_MSG_CONNIDX_NONE) = false) as Hne by by apply N.eqb_neq.
  split; [done|]. split; [done|]. split; [|split].
  - intros p s Hp Hs. unfold readKcpMsg. rewrite Hf.
    unfold readKcpMsg_dispatch. rewrite Hne.
    unfold handleKcpMsg. client_simpl. rewrite Hp.
    unfold sendData. client_simpl. by rewrite Hs, Hpay.
  - intros Hp. unfold readKcpMsg. rewrite Hf.
    unfold readKcpMsg_dispatch. rewrite Hne.
    unfold handleKcpMsg. client_simpl. by rewrite Hp.
  - intros p s c0 Hs <- Hbne. by apply handleIncomingTCPMesasge_one_chunk.
Qed.

(** C4. For a live session, [handleIncomingTCPMesasge] appends to the
    messages sent a list of data messages of the session's index whose
    payloads, concatenated in order, are the input; every payload has
    between 1 and 65531 bytes, and an empty input sends nothing. *)
Theorem tcp_input_chunking (p : ptr) (s : ClientTCPSession) (msg : list byte)
    (c : Client) :
  sessions c !! p = Some s ->
  exists frames : list (list byte),
    handleIncomingTCPMesasge p msg c = Ret (set_kcpSent (kcpSent c ++ frames) c)
    /\ concat (map (drop 4) frames) = msg
    /\ Forall (fun f => f = kcpDataMsg (connIdx_ s) (drop 4 f)
                        /\ 0 < N.of_nat (length (drop 4 f)) <= 65531) frames
    /\ (msg = [] -> frames = []).
Proof.
  remember (length msg) as n eqn:Hn. revert msg c Hn.
  induction (lt_wf n) as [n _ IH]. intros msg c -> Hs.
  destruct (decide (msg = [])) as [->|Hne].
  - exists []. simp handleIncomingTCPMesasge. rewrite app_nil_r.
    destruct c; done.
  - pose proof (chunkLen_bounds msg Hne) as [[H0 H1] H2].
    rewrite (handleIncomingTCPMesasge_step p s) by done.
    set (ch := take (chunkLen msg) msg).
    destruct (IH (length (drop (chunkLen msg) msg))
                ltac:(rewrite length_drop; lia)
                _ (sendKcpMsg (kcpDataMsg (connIdx_ s) ch) c) eq_refl Hs)
      as (frames & Hrun & Hcat & Hall & _).
    exists (kcpDataMsg (connIdx_ s) ch :: frames). repeat split.
    + rewrite Hrun. unfold sendKcpMsg. cbn. by rewrite <- app_assoc.
    + cbn [map concat]. rewrite drop4_kcpDataMsg, Hcat. apply take_drop.
    + constructor; [|done]. rewrite drop4_kcpDataMsg. split; [done|].
      unfold ch. rewrite length_take. lia.
    + done.
Qed.

(** ** The decode step *)

Lemma frame_len_bound buf : frame_len buf < 65536.
Proof.
  destruct buf as [|b0 [|b1 buf]]; cbn [frame_len]; try lia.
  apply load_u16_bound.
Qed.

Lemma readKcpMsg_frame_unavailable buf :
  ~ frame_available buf -> readKcpMsg_frame buf = None.
Proof.
  unfold frame_available, readKcpMsg_frame. intros Hna.
  case_cmp; [done|].
  destruct buf as [|b0 [|b1 [|b2 [|b3 buf]]]]; try done.
  cbn [frame_len] in Hna. case_cmp; [done|]. lia.
Qed.

Lemma readKcpMsg_frame_available buf :
  frame_available buf ->
  readKcpMsg_frame buf =
  Some (frame_idx buf, take (N.to_nat (frame_len buf)) buf,
        drop (N.to_nat (frame_len buf)) buf).
Proof.
  unfold frame_available, readKcpMsg_frame. intros [H4 Hlen].
  case_cmp; [lia|].
  destruct buf as [|b0 [|b1 [|b2 [|b3 buf]]]]; cbn [length] in *; try lia.
  cbn [frame_len frame_idx] in *. case_cmp; [lia|]. done.
Qed.

Lemma readKcpMsg_frame_Some buf idx msg rest :
  readKcpMsg_frame buf = Some (idx, msg, rest) ->
  frame_available buf /\ idx = frame_idx buf
  /\ msg = take (N.to_nat (frame_len buf)) buf
  /\ rest = drop (N.to_nat (frame_len buf)) buf.
Proof.
  intros H. destruct (decide (frame_available buf)) as [Ha|Hna].
  - rewrite (readKcpMsg_frame_available _ Ha) in H.
    injection H as <- <- <-. auto.
  - by rewrite (readKcpMsg_frame_unavailable _ Hna) in H.
Qed.

Lemma mem_read_length a off len l :
  mem_read a off len = Some l -> N.of_nat (length l) = len.
Proof.
  unfold mem_read. case_cmp; [|done]. intros [= <-].
  rewrite length_take, length_drop. lia.
Qed.

Lemma string_u8_at_in_bounds msg off :
  off <= N.of_nat (length msg) -> is_Some (string_u8_at msg off).
Proof.
  intros H. unfold string_u8_at.
  destruct (mem_read (c_str msg) off 1) as [l|] eqn:E.
  - apply mem_read_length in E. destruct l as [|b [|]]; cbn [length] in E; try lia. done.
  - unfold mem_read, c_str in E. rewrite length_app in E. cbn [length] in E.
    revert E. case_cmp; [done|lia].
Qed.

Lemma string_u16_at_in_bounds msg off :
  off + 1 <= N.of_nat (length msg) -> is_Some (string_u16_at msg off).
Proof.
  intros H. unfold string_u16_at.
  destruct (mem_read (c_str msg) off 2) as [l|] eqn:E.
  - apply mem_read_length in E. destruct l as [|b [|b' [|]]]; cbn [length] in E; try lia. done.
  - unfold mem_read, c_str in E. rewrite length_app in E. cbn [length] in E.
    revert E. case_cmp; [done|lia].
Qed.

Lemma removeConnection_live p b c :
  is_Some (sessions c !! p) -> exists c', removeConnection p b c = Ret c'.
Proof. intros [s Hs]. unfold removeConnection. rewrite Hs. eauto. Qed.

Lemma readKcpMsg_dispatch_defined idx msg c :
  table_live c -> N.of_nat (length msg) < 65536 ->
  frame_fields_present idx msg ->
  exists c', readKcpMsg_dispatch idx msg c = Ret c'.
Proof.
  intros Hlive Hmax [H4 Hclose]. unfold readKcpMsg_dispatch.
  destruct (N.eqb_spec idx KCP_MSG_CONNIDX_NONE) as [H|H].
  - destruct (string_u8_at_in_bounds msg 4 H4) as [type Ht]. rewrite Ht.
    case_cmp; [|eauto]. subst type.
    unfold handleKcpMsg_closeConn.
    destruct (string_u16_at_in_bounds msg 5) as [i Hidx]; [specialize (Hclose H Ht); lia|].
    rewrite Hidx. destruct (conns_ c !! i) as [p|] eqn:Hp; [|eauto].
    destruct (Hlive _ _ Hp) as (s & Hs & _). by apply removeConnection_live.
  - unfold handleKcpMsg. destruct (conns_ c !! idx) as [p|] eqn:Hp; [|eauto].
    destruct (Hlive _ _ Hp) as (s & Hs & _). unfold sendData. rewrite Hs.
    destruct (mem_read _ _ _) eqn:E; [eauto|].
    unfold mem_read, c_str, size_t_sub, size_t_modulus in E.
    rewrite length_app in E. cbn [length] in E. revert E. case_cmp; [done|]. nlia.
Qed.

Lemma readKcpMsg_dispatch_kcpInBuf idx msg c c' :
  readKcpMsg_dispatch idx msg c = Ret c' -> kcpInBuf_ c' = kcpInBuf_ c.
Proof.
  unfold readKcpMsg_dispatch, handleKcpMsg_closeConn, handleKcpMsg,
    removeConnection, sendData.
  intros H. repeat case_match; try discriminate; injection H as <-; reflexivity.
Qed.

(** Without a whole message in the buffer the call changes nothing. *)
Lemma readKcpMsg_need_more c :
  ~ frame_available (kcpInBuf_ c) -> readKcpMsg c = Ret (false, c).
Proof.
  intros Hna. unfold readKcpMsg. by rewrite readKcpMsg_frame_unavailable.
Qed.

Lemma readKcpMsg_false_inv c c' :
  readKcpMsg c = Ret (false, c') -> ~ frame_available (kcpInBuf_ c) /\ c' = c.
Proof.
  unfold readKcpMsg.
  destruct (readKcpMsg_frame (kcpInBuf_ c)) as [[[idx msg] rest]|] eqn:Hf.
  - destruct (readKcpMsg_dispatch _ _ _); discriminate.
  - intros [= <-]. split; [|done].
    intros Ha. by rewrite (readKcpMsg_frame_available _ Ha) in Hf.
Qed.

Lemma readKcpMsg_true_inv c c' :
  readKcpMsg c = Ret (true, c') ->
  frame_available (kcpInBuf_ c)
  /\ kcpInBuf_ c' = drop (N.to_nat (frame_len (kcpInBuf_ c))) (kcpInBuf_ c).
Proof.
  unfold readKcpMsg.
  destruct (readKcpMsg_frame (kcpInBuf_ c)) as [[[idx msg] rest]|] eqn:Hf;
    [|discriminate].
  apply readKcpMsg_frame_Some in Hf as (Ha & _ & _ & ->).
  destruct (readKcpMsg_dispatch _ _ _) as [c1|] eqn:Hd; [|discriminate].
  intros [= <-]. split; [done|].
  by apply readKcpMsg_dispatch_kcpInBuf in Hd.
Qed.

Lemma readKcpMsg_fields_present c :
  frame_available (kcpInBuf_ c) -> table_live c ->
  frame_fields_present (frame_idx (kcpInBuf_ c))
    (take (N.to_nat (frame_len (kcpInBuf_ c))) (kcpInBuf_ c)) ->
  exists c', readKcpMsg c = Ret (true, c').
Proof.
  intros Ha Hlive Hfields. unfold readKcpMsg.
  rewrite (readKcpMsg_frame_available _ Ha).
  destruct (readKcpMsg_dispatch_defined (frame_idx (kcpInBuf_ c))
              (take (N.to_nat (frame_len (kcpInBuf_ c))) (kcpInBuf_ c))
              (set_kcpInBuf (drop (N.to_nat (frame_len (kcpInBuf_ c)))
                               (kcpInBuf_ c)) c) Hlive)
    as [c' ->]; [|done|eauto].
  pose proof (frame_len_bound (kcpInBuf_ c)). rewrite length_take. lia.
Qed.

(** With a whole message buffered the call never asks for more. *)
Lemma readKcpMsg_available_cases c :
  frame_available (kcpInBuf_ c) ->
  readKcpMsg c = UB \/ exists c', readKcpMsg c = Ret (true, c').
Proof.
  intros Ha. unfold readKcpMsg. rewrite (readKcpMsg_frame_available _ Ha).
  destruct (readKcpMsg_dispatch _ _ _); client_simpl; eauto.
Qed.

(** What one call of [readKcpMsg] does to the reassembly buffer. It reports
    success only when at least four bytes and at least as many bytes as the
    little-endian length field says are buffered, and it then leaves in the
    buffer exactly what follows the first [len] bytes; without such a message
    it reports that more is needed and changes nothing at all. With a
    message buffered the call never asks for more, and it succeeds whenever
    the message holds the fields its dispatch reads. *)
Theorem readKcpMsg_decode_contract (c : Client) :
  (~ frame_available (kcpInBuf_ c) -> readKcpMsg c = Ret (false, c))
  /\ (forall c', readKcpMsg c = Ret (false, c') ->
        ~ frame_available (kcpInBuf_ c) /\ c' = c)
  /\ (forall c', readKcpMsg c = Ret (true, c') ->
        frame_available (kcpInBuf_ c)
        /\ kcpInBuf_ c' = drop (N.to_nat (frame_len (kcpInBuf_ c))) (kcpInBuf_ c))
  /\ (frame_available (kcpInBuf_ c) ->
      readKcpMsg c = UB \/ exists c', readKcpMsg c = Ret (true, c'))
  /\ (frame_available (kcpInBuf_ c) -> table_live c ->
      frame_fields_present (frame_idx (kcpInBuf_ c))
        (take (N.to_nat (frame_len (kcpInBuf_ c))) (kcpInBuf_ c)) ->
      exists c', readKcpMsg c = Ret (true, c')).
Proof.
  split; [apply readKcpMsg_need_more|].
  split; [apply readKcpMsg_false_inv|].
  split; [apply readKcpMsg_true_inv|].
  split; [apply readKcpMsg_available_cases|apply readKcpMsg_fields_present].
Qed.

(** ** Close messages *)

Lemma kcpCloseMsg_bytes i :
  kcpCloseMsg i
  = [Byte.x07; Byte.x00; Byte.x00; Byte.x00; Byte.x01; byte_of_N i; byte_of_N (i / 256)].
Proof. reflexivity. Qed.

Lemma readKcpMsg_frame_close (i : N) (rest : list byte) :
  readKcpMsg_frame (kcpCloseMsg i ++ rest)
  = Some (KCP_MSG_CONNIDX_NONE, kcpCloseMsg i, rest).
Proof.
  rewrite kcpCloseMsg_bytes. unfold readKcpMsg_frame. cbn [app length].
  case_cmp; [lia|].
  change (load_u16 Byte.x07 Byte.x00) with 7.
  change (load_u16 Byte.x00 Byte.x00) with KCP_MSG_CONNIDX_NONE.
  case_cmp; [lia|]. reflexivity.
Qed.

Lemma kcpCloseMsg_type i :
  string_u8_at (kcpCloseMsg i) 4 = Some KCP_MSG_TYPE_CLOSE_CONN.
Proof. reflexivity. Qed.

Lemma kcpCloseMsg_connIdx i : i < 65536 ->
  string_u16_at (kcpCloseMsg i) 5 = Some i.
Proof.
  intros Hi. rewrite kcpCloseMsg_bytes. unfold string_u16_at, mem_read, c_str.
  cbn [app length]. case_cmp; [|lia].
  change (N.to_nat 5) with 5%nat. change (N.to_nat 2) with 2%nat.
  cbn [take drop]. by rewrite load_store_u16.
Qed.


Lemma readKcpMsg_close i rest c : i < 65536 ->
  kcpInBuf_ c = kcpCloseMsg i ++ rest ->
  readKcpMsg c =
  c' ← handleKcpMsg_closeConn (kcpCloseMsg i) (set_kcpInBuf rest c); Ret (true, c').
Proof.
  intros Hi Hbuf. unfold readKcpMsg. rewrite Hbuf, readKcpMsg_frame_close.
  unfold readKcpMsg_dispatch. rewrite N.eqb_refl, kcpCloseMsg_type, N.eqb_refl.
  done.
Qed.

(** C6. A close message for index [i] at the head of the reassembly buffer
    of a well-formed client: if [i] is in the connection table, the session
    it points to is destroyed, [i] leaves the table and nothing is handed to
    the KCP engine; if [i] is not in the table, only the message is taken
    from the buffer, and the table, the sessions and the messages sent stay
    as they were. *)
Theorem remote_close_conn (i : N) (rest : list byte) (c : Client) :
  i < 65536 -> table_live c -> kcpInBuf_ c = kcpCloseMsg i ++ rest ->
  match conns_ c !! i with
  | Some p =>
      readKcpMsg c =
      Ret (true, set_sessions (delete p (sessions c))
                   (set_conns (delete i (conns_ c)) (set_kcpInBuf rest c)))
  | None => readKcpMsg c = Ret (true, set_kcpInBuf rest c)
  end
  /\ (forall c', readKcpMsg c = Ret (true, c') ->
        kcpSent c' = kcpSent c /\ conns_ c' !! i = None
        /\ (forall p, conns_ c !! i = Some p -> sessions c' !! p = None)).
Proof.
  intros Hi Hlive Hbuf. rewrite (readKcpMsg_close i rest) by done.
  unfold handleKcpMsg_closeConn. rewrite kcpCloseMsg_connIdx by done.
  client_simpl. destruct (conns_ c !! i) as [p|] eqn:Hp.
  - destruct (Hlive _ _ Hp) as (s & Hs & Hidx).
    unfold removeConnection. client_simpl. rewrite Hs, Hidx. client_simpl.
    split; [done|]. intros c' [= <-]. client_simpl.
    rewrite !lookup_delete_eq. split; [done|]. split; [done|].
    intros ? [= <-]. apply lookup_delete_eq.
  - client_simpl. split; [done|]. intros c' [= <-]. client_simpl. done.
Qed.



(** ** Connection indices *)

Lemma wrap16_succ n : wrap16 (wrap16 n + 1) = wrap16 (n + 1).
Proof. unfold wrap16. nlia. Qed.

(** The index given to an accepted connection is the static counter plus
    one as a [uint16_t]; the session is entered in the table unless the
    index is already there. *)
Lemma listenerCallback_spec fd c :
  exists c',
    listenerCallback fd c = Ret (wrap16 (static_connIdx c + 1), c')
    /\ static_connIdx c' = wrap16 (static_connIdx c + 1)
    /\ conns_ c' = map_insert_pair (wrap16 (static_connIdx c + 1))
                     (sessionsNext c) (conns_ c)
    /\ sessions c' = <[sessionsNext c :=
                        setTimeout (tcpReadTimeout_ c) (tcpWriteTimeout_ c)
                          (mkSession (wrap16 (static_connIdx c + 1)) fd None
                             None [])]> (sessions c)
    /\ kcpSent c' = kcpSent c.
Proof.
  unfold listenerCallback, addConnection. client_simpl.
  rewrite lookup_insert_eq. client_simpl.
  eexists. split; [done|]. client_simpl. by rewrite insert_insert_eq.
Qed.

Lemma accept_then_close_spec fd c :
  exists c',
    accept_then_close fd c = Ret c'
    /\ static_connIdx c' = wrap16 (static_connIdx c + 1)
    /\ (forall k, k <> wrap16 (static_connIdx c + 1) ->
          conns_ c' !! k = conns_ c !! k).
Proof.
  unfold accept_then_close.
  destruct (listenerCallback_spec fd c) as (c1 & -> & Hst & Hconns & Hsess & _).
  client_simpl. cbn [snd]. unfold cb_tcpEvent, removeConnection.
  rewrite Hsess, lookup_insert_eq. cbn [setTimeout connIdx_].
  eexists. split; [done|]. client_simpl. split; [done|].
  intros k Hk. rewrite lookup_delete_ne by done. rewrite Hconns.
  unfold map_insert_pair. destruct (conns_ c !! _); [done|].
  by rewrite lookup_insert_ne.
Qed.

Lemma accept_then_close_n_spec fd n c :
  static_connIdx c < 65536 ->
  exists c',
    accept_then_close_n n fd c = Ret c'
    /\ static_connIdx c' = wrap16 (static_connIdx c + n)
    /\ (forall k, (forall j, 1 <= j <= n -> k <> wrap16 (static_connIdx c + j)) ->
          conns_ c' !! k = conns_ c !! k).
Proof.
  intros Hst. unfold accept_then_close_n.
  induction n as [|n IH] using N.peano_ind.
  - exists c. cbn. split; [done|]. split; [|done].
    unfold wrap16. nlia.
  - rewrite N.iter_succ. destruct IH as (cn & -> & Hstn & Hconn).
    client_simpl.
    destruct (accept_then_close_spec fd cn) as (c' & -> & Hst' & Hconn').
    exists c'. split; [done|]. split.
    + rewrite Hst', Hstn, wrap16_succ. f_equal. lia.
    + intros k Hk. rewrite Hconn'.
      * apply Hconn. intros j Hj. apply Hk. lia.
      * rewrite Hstn, wrap16_succ.
        replace (static_connIdx c + n + 1) with (static_connIdx c + N.succ n)
          by lia.
        apply Hk. lia.
Qed.

(** C5, on the code. The first accepted connection gets index 2, but the
    counter of [listenerCallback] is a plain [uint16_t] increment: after
    65534 connections have come and gone the next one gets 65535 + 1 = 0,
    the index reserved for control messages, and it is entered in the table
    under 0. Nor is the table consulted: with index 2 still in the table,
    the connection accepted 65536 accepts after it is given index 2 again,
    and the table keeps pointing to the older session. *)
Theorem listenerCallback_issues_zero (conv : N) (rto wto fd : Z) :
  (exists c1, listenerCallback fd (Client_new conv rto wto) = Ret (2, c1))
  /\ (exists c c',
        accept_then_close_n 65534 fd (Client_new conv rto wto) = Ret c
        /\ listenerCallback fd c = Ret (0, c')
        /\ is_Some (conns_ c' !! 0))
  /\ (exists c1 c c' p,
        listenerCallback fd (Client_new conv rto wto) = Ret (2, c1)
        /\ conns_ c1 !! 2 = Some p
        /\ accept_then_close_n 65535 fd c1 = Ret c
        /\ conns_ c !! 2 = Some p
        /\ listenerCallback fd c = Ret (2, c')
        /\ conns_ c' = conns_ c).
Proof.
  destruct (listenerCallback_spec fd (Client_new conv rto wto))
    as (c1 & Hacc1 & Hst1 & Hconns1 & _).
  change (wrap16 (static_connIdx (Client_new conv rto wto) + 1)) with 2 in *.
  assert (conns_ c1 !! 2 = Some 1%positive) as Hc1.
  { rewrite Hconns1. reflexivity. }
  split; [eauto|]. split.
  - destruct (accept_then_close_n_spec fd 65534 (Client_new conv rto wto))
      as (c & Hrun & Hst & _); [done|].
    destruct (listenerCallback_spec fd c) as (c' & Hacc & _ & Hconns & _).
    rewrite Hst in Hacc, Hconns.
    change (wrap16 (wrap16 (static_connIdx (Client_new conv rto wto) + 65534)
                    + 1)) with 0 in *.
    exists c, c'. split; [done|]. split; [done|].
    rewrite Hconns. unfold map_insert_pair.
    destruct (conns_ c !! 0) eqn:E; [by rewrite E|].
    by rewrite lookup_insert_eq.
  - destruct (accept_then_close_n_spec fd 65535 c1) as (c & Hrun & Hst & Hkeep).
    { rewrite Hst1. done. }
    rewrite Hst1 in Hst, Hkeep.
    assert (conns_ c !! 2 = Some 1%positive) as Hc.
    { rewrite Hkeep; [done|]. intros j Hj. unfold wrap16. nlia. }
    destruct (listenerCallback_spec fd c) as (c' & Hacc & _ & Hconns & _).
    rewrite Hst in Hacc, Hconns.
    change (wrap16 (wrap16 (2 + 65535) + 1)) with 2 in *.
    exists c1, c, c', 1%positive. repeat split; try done.
    rewrite Hconns. unfold map_insert_pair. by rewrite Hc.
Qed.

(** ** The table and the free store stay consistent *)

Lemma Client_new_wf conv rto wto : Client_wf (Client_new conv rto wto).
Proof.
  split.
  - intros k p Hk. cbn in Hk. by rewrite lookup_empty in Hk.
  - intros p [s Hs]. cbn in Hs. by rewrite lookup_empty in Hs.
Qed.

Lemma removeConnection_wf p b c c' :
  Client_wf c -> removeConnection p b c = Ret c' -> Client_wf c'.
Proof.
  intros [Hlive Hfresh]. unfold removeConnection.
  destruct (sessions c !! p) as [s|] eqn:Hs; [|discriminate].
  intros [= <-]. split.
  - intros k q. destruct b; client_simpl.
    all: intros Hk; apply lookup_delete_Some in Hk as [Hne Hk].
    all: destruct (Hlive _ _ Hk) as (s' & Hs' & Hidx).
    all: exists s'; split; [|done].
    all: rewrite lookup_delete_ne; [done|].
    all: intros ->; congruence.
  - intros q. destruct b; client_simpl.
    all: intros [s' Hq]; apply lookup_delete_Some in Hq as [_ Hq].
    all: apply Hfresh; eauto.
Qed.

Lemma listenerCallback_wf fd c idx c' :
  Client_wf c -> listenerCallback fd c = Ret (idx, c') -> Client_wf c'.
Proof.
  intros [Hlive Hfresh] Hacc.
  destruct (listenerCallback_spec fd c) as (c1 & Hrun & _ & Hconns & Hsess & _).
  rewrite Hrun in Hacc. injection Hacc as _ <-.
  assert (sessions c !! sessionsNext c = None) as Hnew.
  { destruct (sessions c !! sessionsNext c) eqn:E; [|done].
    specialize (Hfresh (sessionsNext c) (mk_is_Some _ _ E)). lia. }
  assert (sessionsNext c1 = Pos.succ (sessionsNext c)) as Hnext.
  { unfold listenerCallback, addConnection in Hrun. client_simpl.
    rewrite lookup_insert_eq in Hrun. client_simpl. by injection Hrun as <-. }
  split.
  - intros k q Hk. rewrite Hconns in Hk. rewrite Hsess.
    unfold map_insert_pair in Hk.
    destruct (conns_ c !! wrap16 (static_connIdx c + 1)) eqn:Hidx.
    + destruct (Hlive _ _ Hk) as (s & Hs & Hks). exists s. split; [|done].
      rewrite lookup_insert_ne; [done|]. intros <-. congruence.
    + apply lookup_insert_Some in Hk as [[<- <-]|[Hne Hk]].
      * rewrite lookup_insert_eq. eauto.
      * destruct (Hlive _ _ Hk) as (s & Hs & Hks). exists s. split; [|done].
        rewrite lookup_insert_ne; [done|]. intros <-. congruence.
  - intros q [s Hq]. rewrite Hnext. rewrite Hsess in Hq.
    apply lookup_insert_Some in Hq as [[<- _]|[_ Hq]]; [lia|].
    specialize (Hfresh q (mk_is_Some _ _ Hq)). lia.
Qed.

Lemma sendData_wf p data off len c c' :
  Client_wf c -> sendData p data off len c = Ret c' -> Client_wf c'.
Proof.
  intros [Hlive Hfresh]. unfold sendData.
  destruct (sessions c !! p) as [s|] eqn:Hs; [|discriminate].
  destruct (mem_read _ _ _); [|discriminate]. intros [= <-]. split.
  - intros k q Hk. client_simpl. destruct (Hlive _ _ Hk) as (s' & Hs' & Hidx).
    destruct (decide (q = p)) as [->|Hne].
    + rewrite lookup_insert_eq. eexists. split; [done|]. cbn. congruence.
    + rewrite lookup_insert_ne by done. eauto.
  - intros q [s' Hq]. client_simpl.
    apply lookup_insert_Some in Hq as [[<- _]|[_ Hq]]; apply Hfresh; eauto.
Qed.

Lemma readKcpMsg_wf c r c' :
  Client_wf c -> readKcpMsg c = Ret (r, c') -> Client_wf c'.
Proof.
  intros Hwf. unfold readKcpMsg.
  destruct (readKcpMsg_frame (kcpInBuf_ c)) as [[[idx msg] rest]|];
    [|by intros [= _ <-]].
  assert (Client_wf (set_kcpInBuf rest c)) as Hwf1 by done.
  destruct (readKcpMsg_dispatch _ _ _) as [c1|] eqn:Hd; [|discriminate].
  intros [= _ <-]. revert Hd.
  unfold readKcpMsg_dispatch, handleKcpMsg_closeConn, handleKcpMsg.
  repeat case_match; try discriminate.
  - by apply removeConnection_wf.
  - by intros [= <-].
  - by intros [= <-].
  - by apply sendData_wf.
  - by intros [= <-].
Qed.

Lemma Client_wf_same c c' :
  conns_ c' = conns_ c -> sessions c' = sessions c ->
  sessionsNext c' = sessionsNext c -> Client_wf c -> Client_wf c'.
Proof.
  intros Hc Hs Hn [Hlive Hfresh]. split.
  - intros k p. rewrite Hc, Hs. apply Hlive.
  - intros p. rewrite Hs, Hn. apply Hfresh.
Qed.

Lemma handleIncomingTCPMesasge_wf p msg c c' :
  Client_wf c -> handleIncomingTCPMesasge p msg c = Ret c' -> Client_wf c'.
Proof.
  remember (length msg) as n eqn:Hn. revert msg c Hn.
  induction (lt_wf n) as [n _ IH]. intros msg c -> Hwf.
  destruct msg as [|b bs]; simp handleIncomingTCPMesasge.
  - by intros [= <-].
  - destruct (sessions c !! p) as [s|] eqn:Hs;
      simp handleIncomingTCPMesasge; [|discriminate].
    apply (IH (length (drop (chunkLen (b :: bs)) (b :: bs)))); [|done|].
    + pose proof (chunkLen_bounds (b :: bs)) as [[? ?] _]; [done|].
      rewrite length_drop. lia.
    + by apply (Client_wf_same c).
Qed.

Lemma stop_loop_wf todo c c' :
  Client_wf c -> stop_loop todo c = Ret c' -> Client_wf c'.
Proof.
  revert c. induction todo as [|[k p] todo IH]; intros c Hwf; cbn [stop_loop].
  - by intros [= <-].
  - destruct (conns_ c !! k) as [session|]; [|by apply IH].
    destruct (removeConnection session true c) as [c1|] eqn:Hrm;
      client_simpl; [|discriminate].
    destruct (conns_ c1 !! k); [|discriminate].
    apply IH. by apply (removeConnection_wf session true c).
Qed.

Lemma stop_wf c c' : Client_wf c -> stop c = Ret c' -> Client_wf c'.
Proof.
  intros Hwf. unfold stop. destruct (running_ c); cbn [negb].
  - destruct (stop_loop _ _) as [c3|] eqn:Hloop; client_simpl; [|discriminate].
    intros [= <-]. apply stop_loop_wf in Hloop; [|done].
    by apply (Client_wf_same c3).
  - by intros [= <-].
Qed.

(** Every state the client reaches satisfies the invariant: the hypothesis
    [table_live] of the properties below holds throughout a run. *)
Lemma reachable_wf c : reachable c -> Client_wf c.
Proof.
  induction 1 as [conv rto wto | fd c idx c' _ IH Hstep
                 | session readable c c' _ IH Hstep
                 | session c c' _ IH Hstep | data c _ IH
                 | c r c' _ IH Hstep | p c r c' _ IH Hstep | now c _ IH
                 | c _ IH | c _ IH | c c' _ IH Hstep | c _ IH | c _ IH].
  - apply Client_new_wf.
  - by apply (listenerCallback_wf fd c idx).
  - by apply (handleIncomingTCPMesasge_wf session readable c).
  - by apply (removeConnection_wf session true c).
  - by apply (Client_wf_same c).
  - by apply (readKcpMsg_wf c r).
  - unfold recvInitKCPConvPkg in Hstep.
    repeat case_match; try discriminate; injection Hstep as _ <-; done.
  - apply (Client_wf_same c); try done.
    all: unfold checkInitKCP; client_simpl; by repeat case_match.
  - by apply (Client_wf_same c).
  - by apply (Client_wf_same c).
  - by apply (stop_wf c).
  - by apply (Client_wf_same c).
  - by apply (Client_wf_same c).
Qed.

(** [client_235] is reached from a ready client: four accepts, then a close
    message from the server for index 4. *)
Lemma client_235_reached :
  (c1 ← listenerCallback 7 (Client_ready example_conv 0 0);
   c2 ← listenerCallback 7 c1.2;
   c3 ← listenerCallback 7 c2.2;
   c4 ← listenerCallback 7 c3.2;
   readKcpMsg (set_kcpInBuf (kcpCloseMsg 4) c4.2))
  = Ret (true, client_235).
Proof. vm_compute. reflexivity. Qed.

(** [client_235] satisfies the invariant. *)
Lemma client_235_wf : Client_wf client_235.
Proof.
  pose proof client_235_reached as Hrun.
  destruct (listenerCallback 7 (Client_ready example_conv 0 0))
    as [[i1 c1]|] eqn:H1; [|discriminate Hrun].
  client_simpl. cbn [snd] in Hrun.
  destruct (listenerCallback 7 c1) as [[i2 c2]|] eqn:H2; [|discriminate Hrun].
  client_simpl. cbn [snd] in Hrun.
  destruct (listenerCallback 7 c2) as [[i3 c3]|] eqn:H3; [|discriminate Hrun].
  client_simpl. cbn [snd] in Hrun.
  destruct (listenerCallback 7 c3) as [[i4 c4]|] eqn:H4; [|discriminate Hrun].
  client_simpl. cbn [snd] in Hrun.
  apply (readKcpMsg_wf (set_kcpInBuf (kcpCloseMsg 4) c4) true); [|done].
  assert (Client_wf c4) as Hwf; [|done].
  eapply listenerCallback_wf; [|done]. eapply listenerCallback_wf; [|done].
  eapply listenerCallback_wf; [|done]. eapply listenerCallback_wf; [|done].
  split.
  - intros k p Hk. cbn in Hk. by rewrite lookup_empty in Hk.
  - intros p [s Hs]. cbn in Hs. by rewrite lookup_empty in Hs.
Qed.

(** ** Handshake *)

Lemma initKCPConvPkg_length conv : length (initKCPConvPkg conv) = 12%nat.
Proof. reflexivity. Qed.

(** A twelve-byte datagram passes the three comparisons of
    [recvInitKCPConvPkg] exactly when it is the handshake datagram. *)
Lemma recvInitKCPConvPkg_spec (d : list byte) (c : Client) :
  length d = 12%nat -> kcpConv_ c < 4294967296 ->
  recvInitKCPConvPkg d c =
  if decide (d = initKCPConvPkg (kcpConv_ c))
  then Ret (true, set_isInitKCPConv true c) else Ret (false, c).
Proof.
  intros Hlen Hconv.
  do 12 (destruct d as [|? d]; [done|]). destruct d; [|done]. clear Hlen.
  unfold recvInitKCPConvPkg.
  assert (wrap32 (kcpConv_ c + 1) < 4294967296) as Hw
    by (unfold wrap32; nlia).
  case_decide as Hd.
  - unfold initKCPConvPkg, store_u32 in Hd. cbn [app] in Hd.
    injection Hd as -> -> -> -> -> -> -> -> -> -> -> ->.
    rewrite !load_store_u32 by (done || lia).
    by rewrite !N.eqb_refl.
  - destruct (N.eqb_spec (load_u32 b b0 b1 b2) 0) as [E0|]; [|done].
    destruct (N.eqb_spec (load_u32 b3 b4 b5 b6) (kcpConv_ c)) as [E1|]; [|done].
    destruct (N.eqb_spec (load_u32 b7 b8 b9 b10) (wrap32 (kcpConv_ c + 1)))
      as [E2|]; [|done].
    exfalso. apply Hd.
    transitivity (store_u32 (load_u32 b b0 b1 b2)
                    ++ store_u32 (load_u32 b3 b4 b5 b6)
                    ++ store_u32 (load_u32 b7 b8 b9 b10)).
    + by rewrite !store_load_u32.
    + by rewrite E0, E1, E2.
Qed.

(** A ready client is what the handshake leaves once the listener is
    bound. *)
Lemma Client_ready_handshake conv rto wto :
  conv < 4294967296 ->
  exists c1,
    recvInitKCPConvPkg (initKCPConvPkg conv)
      (sendInitKCPConvPkg (Client_new conv rto wto)) = Ret (true, c1)
    /\ Client_ready conv rto wto
       = set_base (mkEventBase true None false true true) (checkInitKCP 0 c1).
Proof.
  intros Hconv. eexists. split.
  - rewrite recvInitKCPConvPkg_spec by done. by rewrite decide_True.
  - reflexivity.
Qed.

(** A ready client is a state the client reaches. *)
Lemma Client_ready_reachable conv rto wto :
  conv < 4294967296 -> reachable (Client_ready conv rto wto).
Proof.
  intros Hconv.
  change (Client_ready conv rto wto)
    with (setup_listen
            (checkInitKCP 0
               (set_isInitKCPConv true
                  (sendInitKCPConvPkg (Client_new conv rto wto))))).
  apply reach_setup_listen, reach_checkInitKCP.
  apply (reach_handshake (initKCPConvPkg conv)
           (sendInitKCPConvPkg (Client_new conv rto wto)) true).
  - apply reach_sendInit, reach_new.
  - rewrite recvInitKCPConvPkg_spec by done. by rewrite decide_True.
Qed.

Lemma readKcpMsg_dispatch_isInitKCPConv idx msg c c' :
  readKcpMsg_dispatch idx msg c = Ret c' ->
  isInitKCPConv_ c' = isInitKCPConv_ c.
Proof.
  unfold readKcpMsg_dispatch, handleKcpMsg_closeConn, handleKcpMsg,
    removeConnection, sendData.
  intros H. repeat case_match; try discriminate; injection H as <-; reflexivity.
Qed.

Lemma readKcpMsg_isInitKCPConv c r c' :
  readKcpMsg c = Ret (r, c') -> isInitKCPConv_ c' = isInitKCPConv_ c.
Proof.
  unfold readKcpMsg.
  destruct (readKcpMsg_frame (kcpInBuf_ c)) as [[[idx msg] rest]|].
  - destruct (readKcpMsg_dispatch _ _ _) as [c1|] eqn:Hd; [|discriminate].
    intros [= _ <-]. by apply readKcpMsg_dispatch_isInitKCPConv in Hd.
  - by intros [= _ <-].
Qed.

Lemma readKcpMsg_loop_isInitKCPConv fuel c c' :
  readKcpMsg_loop fuel c = Some (Ret c') ->
  isInitKCPConv_ c' = isInitKCPConv_ c.
Proof.
  revert c. induction fuel as [|fuel IH]; intros c; [discriminate|].
  cbn [readKcpMsg_loop].
  destruct (readKcpMsg c) as [[[] c1]|] eqn:Hstep; [| |discriminate].
  - intros Hloop. rewrite (IH _ Hloop). by apply readKcpMsg_isInitKCPConv in Hstep.
  - intros [= <-]. by apply readKcpMsg_isInitKCPConv in Hstep.
Qed.

Lemma readKcpMsg_dispatch_base idx msg c c' :
  readKcpMsg_dispatch idx msg c = Ret c' -> base_ c' = base_ c.
Proof.
  unfold readKcpMsg_dispatch, handleKcpMsg_closeConn, handleKcpMsg,
    removeConnection, sendData.
  intros H. repeat case_match; try discriminate; injection H as <-; reflexivity.
Qed.

Lemma readKcpMsg_base c r c' :
  readKcpMsg c = Ret (r, c') -> base_ c' = base_ c.
Proof.
  unfold readKcpMsg.
  destruct (readKcpMsg_frame (kcpInBuf_ c)) as [[[idx msg] rest]|].
  - destruct (readKcpMsg_dispatch _ _ _) as [c1|] eqn:Hd; [|discriminate].
    intros [= _ <-]. by apply readKcpMsg_dispatch_base in Hd.
  - by intros [= _ <-].
Qed.

Lemma readKcpMsg_loop_base fuel c c' :
  readKcpMsg_loop fuel c = Some (Ret c') -> base_ c' = base_ c.
Proof.
  revert c. induction fuel as [|fuel IH]; intros c; [discriminate|].
  cbn [readKcpMsg_loop].
  destruct (readKcpMsg c) as [[[] c1]|] eqn:Hstep; [| |discriminate].
  - intros Hloop. rewrite (IH _ Hloop). by apply readKcpMsg_base in Hstep.
  - intros [= <-]. by apply readKcpMsg_base in Hstep.
Qed.

(** The echo of the handshake ends the callback at once, with the flag
    set. *)
Lemma handleIncomingUDPMesasge_echo c kcp fuel :
  kcpConv_ c < 4294967296 ->
  handleIncomingUDPMesasge (initKCPConvPkg (kcpConv_ c)) kcp fuel c
  = Some (Ret (set_isInitKCPConv true c)).
Proof.
  intros Hconv. unfold handleIncomingUDPMesasge.
  rewrite initKCPConvPkg_length.
  cbn [N.of_nat Pos.of_succ_nat Pos.succ N.eqb Pos.eqb].
  rewrite recvInitKCPConvPkg_spec by done. by rewrite decide_True.
Qed.

(** Any other datagram goes to the engine; if the engine accepts it, the
    stream bytes it releases are decoded and the update timer is re-armed. *)
Lemma handleIncomingUDPMesasge_other c d kcp fuel :
  kcpConv_ c < 4294967296 -> d <> initKCPConvPkg (kcpConv_ c) ->
  handleIncomingUDPMesasge d kcp fuel c
  = (if (ikcp_input_res kcp <? 0)%Z then Some (Ret c)
     else
       match
         readKcpMsg_loop fuel
           (set_kcpInBuf (kcpInBuf_ c ++ concat (ikcp_recv_data kcp)) c)
       with
       | Some (Ret c'') => Some (kcpUpdateManually c'')
       | Some UB => Some UB
       | None => None
       end).
Proof.
  intros Hconv Hd. unfold handleIncomingUDPMesasge.
  destruct (N.eqb_spec (N.of_nat (length d)) 12) as [Hlen|Hlen]; [|done].
  rewrite recvInitKCPConvPkg_spec by (done || lia). by rewrite decide_False.
Qed.

Lemma handleIncomingUDPMesasge_other_flag c d kcp fuel c' :
  kcpConv_ c < 4294967296 -> d <> initKCPConvPkg (kcpConv_ c) ->
  handleIncomingUDPMesasge d kcp fuel c = Some (Ret c') ->
  isInitKCPConv_ c' = isInitKCPConv_ c.
Proof.
  intros Hconv Hd. rewrite handleIncomingUDPMesasge_other by done.
  destruct (ikcp_input_res kcp <? 0)%Z; [by intros [= <-]|].
  destruct (readKcpMsg_loop _ _) as [[c1|]|] eqn:Hloop; try discriminate.
  unfold kcpUpdateManually. destruct (kcpUpdateTimer_ (base_ c1)); [|discriminate].
  intros [= <-]. by apply readKcpMsg_loop_isInitKCPConv in Hloop.
Qed.

(** Before [setup] has created the update timer, a datagram that is not the
    echo and that the engine accepts does not let the callback return. *)
Lemma handleIncomingUDPMesasge_no_timer c d kcp fuel c' :
  kcpConv_ c < 4294967296 -> d <> initKCPConvPkg (kcpConv_ c) ->
  kcpUpdateTimer_ (base_ c) = false -> (0 <= ikcp_input_res kcp)%Z ->
  handleIncomingUDPMesasge d kcp fuel c <> Some (Ret c').
Proof.
  intros Hconv Hd Htimer Hin. rewrite handleIncomingUDPMesasge_other by done.
  destruct (Z.ltb_spec (ikcp_input_res kcp) 0); [lia|].
  destruct (readKcpMsg_loop _ _) as [[c1|]|] eqn:Hloop; try discriminate.
  apply readKcpMsg_loop_base in Hloop. unfold kcpUpdateManually.
  rewrite Hloop. client_simpl. by rewrite Htimer.
Qed.

(** A timer run within the budget sends the handshake datagram again. *)
Lemma checkInitKCP_retransmit c now :
  isInitKCPConv_ c = false ->
  (now <= default now (static_startTime c) + 10)%Z ->
  checkInitKCP now c
  = sendInitKCPConvPkg
      (set_static_startTime (Some (default now (static_startTime c))) c).
Proof.
  intros Hflag Hnow. unfold checkInitKCP. client_simpl. rewrite Hflag.
  by destruct (Z.ltb_spec (default now (static_startTime c) + 10) now); [lia|].
Qed.

(** A timer run past the budget gives up. *)
Lemma checkInitKCP_timeout c now t0 :
  isInitKCPConv_ c = false -> static_startTime c = Some t0 ->
  (t0 + 10 < now)%Z ->
  checkInitKCP now c
  = exitLoop (set_running false (set_static_startTime (Some t0) c)).
Proof.
  intros Hflag Hstart Hnow. unfold checkInitKCP. rewrite Hstart.
  client_simpl. rewrite Hflag.
  change (default now (Some t0)) with t0.
  destruct (Z.ltb_spec (t0 + 10) now); [done|lia].
Qed.

(** C7, as the code has it. Before the handshake is complete, a received
    datagram sets [isInitKCPConv_] exactly when it is the twelve bytes
    [00 00 00 00 | conv | conv + 1] of the client's conversation id: that
    datagram ends the call with the flag set, and any other datagram is
    passed on to the KCP engine and leaves the flag clear (dropped with the
    state unchanged if the engine refuses it; decoded, with the update timer
    re-armed at the end, if the engine accepts it, which cannot return as
    long as [setup] has not created that timer). Each run of the one-second
    timer that finds the flag clear sends the same twelve bytes again, as
    long as no more than ten seconds have passed since the first run; a run
    later than that sends nothing, clears [running_] and asks the event loop
    to exit. *)
Theorem handshake_completion (c : Client) (d : list byte) (kcp : KcpReply)
    (fuel : nat) :
  kcpConv_ c < 4294967296 -> isInitKCPConv_ c = false ->
  (d = initKCPConvPkg (kcpConv_ c) ->
     handleIncomingUDPMesasge d kcp fuel c
     = Some (Ret (set_isInitKCPConv true c)))
  /\ (d <> initKCPConvPkg (kcpConv_ c) ->
      handleIncomingUDPMesasge d kcp fuel c
      = (if (ikcp_input_res kcp <? 0)%Z then Some (Ret c)
         else
           match
             readKcpMsg_loop fuel
               (set_kcpInBuf (kcpInBuf_ c ++ concat (ikcp_recv_data kcp)) c)
           with
           | Some (Ret c'') => Some (kcpUpdateManually c'')
           | Some UB => Some UB
           | None => None
           end)
      /\ (forall c', handleIncomingUDPMesasge d kcp fuel c = Some (Ret c') ->
                     isInitKCPConv_ c' = false)
      /\ (kcpUpdateTimer_ (base_ c) = false -> (0 <= ikcp_input_res kcp)%Z ->
          forall c', handleIncomingUDPMesasge d kcp fuel c <> Some (Ret c')))
  /\ (forall now : Z,
        (now <= default now (static_startTime c) + 10)%Z ->
        udpSent (checkInitKCP now c)
        = udpSent c ++ [initKCPConvPkg (kcpConv_ c)]
        /\ isInitKCPConv_ (checkInitKCP now c) = false
        /\ running_ (checkInitKCP now c) = running_ c
        /\ kcpConv_ (checkInitKCP now c) = kcpConv_ c
        /\ base_ (checkInitKCP now c) = base_ c)
  /\ (forall (now t0 : Z),
        static_startTime c = Some t0 -> (t0 + 10 < now)%Z ->
        udpSent (checkInitKCP now c) = udpSent c
        /\ running_ (checkInitKCP now c) = false
        /\ loopExit (base_ (checkInitKCP now c)) = true
        /\ isInitKCPConv_ (checkInitKCP now c) = false
        /\ kcpSent (checkInitKCP now c) = kcpSent c).
Proof.
  intros Hconv Hflag. split; [|split; [|split]].
  - intros ->. by apply handleIncomingUDPMesasge_echo.
  - intros Hd. split; [by apply handleIncomingUDPMesasge_other|]. split.
    + intros c' Hrun. rewrite <- Hflag.
      by apply (handleIncomingUDPMesasge_other_flag c d kcp fuel).
    + intros Htimer Hin c'. by apply handleIncomingUDPMesasge_no_timer.
  - intros now Hnow. by rewrite checkInitKCP_retransmit.
  - intros now t0 Hstart Hnow.
    by rewrite (checkInitKCP_timeout c now t0).
Qed.

(** ** Shutdown *)

(** A stopped client ignores [stop]. *)
Lemma stop_not_running c : running_ c = false -> stop c = Ret c.
Proof. intros H. unfold stop. by rewrite H. Qed.

(** With an empty table [stop] clears [running_], disables the listener and
    arms the three-second exit timer; nothing is sent. *)
Lemma stop_empty_table c :
  running_ c = true -> conns_ c = ∅ ->
  exists c',
    stop c = Ret c'
    /\ running_ c' = false
    /\ listenerEnabled (base_ c') = false
    /\ exitEvTimer_ (base_ c') = Some 3%Z
    /\ kcpSent c' = kcpSent c
    /\ cb_exitLoop c' = exitLoop c'
    /\ loopExit (base_ (cb_exitLoop c')) = true.
Proof.
  intros Hrun Hempty. unfold stop. rewrite Hrun. client_simpl.
  rewrite Hempty. unfold map_entries. rewrite map_to_list_empty.
  eexists. split; [reflexivity|]. done.
Qed.

Lemma map_entries_nonempty (m : gmap N ptr) :
  m <> ∅ ->
  exists k p todo, map_entries m = (k, p) :: todo /\ m !! k = Some p.
Proof.
  intros Hne. unfold map_entries.
  destruct (merge_sort entry_le (map_to_list m)) as [|[k p] todo] eqn:E.
  - exfalso. apply Hne. apply map_to_list_empty_iff.
    apply Permutation_nil_r. rewrite <- E. by rewrite merge_sort_Permutation.
  - exists k, p, todo. split; [done|].
    apply elem_of_map_to_list. rewrite <- (merge_sort_Permutation entry_le).
    rewrite E. left.
Qed.

(** With a connection in the table, the loop of [stop] erases the entry its
    iterator stands on and then increments that iterator. *)
Lemma stop_live_table_undefined c :
  running_ c = true -> table_live c -> conns_ c <> ∅ -> stop c = UB.
Proof.
  intros Hrun Hlive Hne. unfold stop. rewrite Hrun. client_simpl.
  destruct (map_entries_nonempty _ Hne) as (k & p & todo & -> & Hk).
  cbn [stop_loop]. client_simpl. rewrite Hk.
  destruct (Hlive _ _ Hk) as (s & Hs & Hidx).
  unfold removeConnection. client_simpl. rewrite Hs, Hidx. client_simpl.
  by rewrite lookup_delete_eq.
Qed.

(** C8, on the code. [stop] on a running client with the indices 2, 3 and 5
    in its table does not get to send three close messages: the first round
    of its loop removes index 2, which erases the map node the loop iterator
    stands on, and the loop then increments that iterator. *)
Theorem stop_three_connections_undefined :
  running_ client_235 = true
  /\ map_entries (conns_ client_235)
     = [(2, 1%positive); (3, 2%positive); (5, 4%positive)]
  /\ stop client_235 = UB.
Proof. vm_compute. done. Qed.

(** ** Messages shorter than their fields *)

Lemma readKcpMsg_truncated_close c :
  kcpInBuf_ c = [Byte.x05; Byte.x00; Byte.x00; Byte.x00; Byte.x01] ->
  readKcpMsg c = UB.
Proof. intros Hbuf. unfold readKcpMsg. by rewrite Hbuf. Qed.

(** C2, on the code. With the five bytes [05 00 00 00 01] in the reassembly
    buffer a whole message is buffered (five bytes, length field 5), yet the
    call does not succeed: the message is a control message of type [0x01],
    and [handleKcpMsg_closeConn] reads the index to close at offset 5 of the
    five-byte message, outside the string. The client reaches this state
    when a ready client receives these five stream bytes. *)
Theorem readKcpMsg_truncated_close_undefined :
  frame_available (kcpInBuf_ client_close5)
  /\ frame_len (kcpInBuf_ client_close5) = 5
  /\ string_u16_at (kcpInBuf_ client_close5) 5 = None
  /\ readKcpMsg client_close5 = UB
  /\ reachable client_close5.
Proof.
  split; [split; vm_compute; discriminate|].
  split; [reflexivity|]. split; [reflexivity|].
  split; [by apply readKcpMsg_truncated_close|].
  apply (reach_kcp_recv [Byte.x05; Byte.x00; Byte.x00; Byte.x00; Byte.x01]
           (Client_ready example_conv 0 0)).
  by apply Client_ready_reachable.
Qed.

(** ** Messages shorter than their header *)

(** A length field below 4 is not rejected. With an index that is not in
    the table the dispatch does not touch the payload, and the call reports
    a message read after taking [len] bytes. *)
Lemma readKcpMsg_short_frame c :
  frame_available (kcpInBuf_ c) -> frame_len (kcpInBuf_ c) < 4 ->
  frame_idx (kcpInBuf_ c) <> KCP_MSG_CONNIDX_NONE ->
  conns_ c !! frame_idx (kcpInBuf_ c) = None ->
  readKcpMsg c =
  Ret (true,
       sendKcpCloseMsg (frame_idx (kcpInBuf_ c))
         (set_kcpInBuf (drop (N.to_nat (frame_len (kcpInBuf_ c))) (kcpInBuf_ c)) c)).
Proof.
  intros Ha _ Hidx Hnone. unfold readKcpMsg.
  rewrite (readKcpMsg_frame_available _ Ha). unfold readKcpMsg_dispatch.
  destruct (N.eqb_spec (frame_idx (kcpInBuf_ c)) KCP_MSG_CONNIDX_NONE); [done|].
  unfold handleKcpMsg. client_simpl. by rewrite Hnone.
Qed.

(** C3, on the code. The buffer [03 00 01 00] starts with a length field of
    3. [readKcpMsg] does not fail: it takes three bytes, treats them as a
    data message for index 1 (answered with a close message, no session
    having that index) and reports a message read. *)
Theorem readKcpMsg_accepts_short_len :
  frame_len (kcpInBuf_ client_len3) = 3
  /\ readKcpMsg client_len3
     = Ret (true, sendKcpCloseMsg 1 (set_kcpInBuf [Byte.x00] client_len3)).
Proof. split; reflexivity. Qed.

Lemma readKcpMsg_len0_step c :
  kcpInBuf_ c = [Byte.x00; Byte.x00; Byte.x01; Byte.x00] ->
  conns_ c !! 1 = None ->
  readKcpMsg c = Ret (true, sendKcpCloseMsg 1 (set_kcpInBuf (kcpInBuf_ c) c)).
Proof.
  intros Hbuf Hnone. rewrite readKcpMsg_short_frame; rewrite Hbuf; done.
Qed.

Lemma readKcpMsg_loop_len0 fuel c :
  kcpInBuf_ c = [Byte.x00; Byte.x00; Byte.x01; Byte.x00] ->
  conns_ c !! 1 = None ->
  readKcpMsg_loop fuel c = None.
Proof.
  revert c. induction fuel as [|fuel IH]; intros c Hbuf Hnone; [done|].
  cbn [readKcpMsg_loop]. rewrite readKcpMsg_len0_step by done.
  by apply IH.
Qed.

(** C10, on the code. With [00 00 01 00] in the reassembly buffer and index
    1 not in the table, a call of [readKcpMsg] reports a message read and
    leaves all four bytes in the buffer, and the loop
    [while (readKcpMsg()) {}] is still running after any number of calls. *)
Theorem readKcpMsg_loop_diverges :
  (exists c', readKcpMsg client_len0 = Ret (true, c')
              /\ length (kcpInBuf_ c') = length (kcpInBuf_ client_len0))
  /\ forall fuel, readKcpMsg_loop fuel client_len0 = None.
Proof.
  split.
  - eexists. split; [by apply readKcpMsg_len0_step|]. reflexivity.
  - intros fuel. by apply readKcpMsg_loop_len0.
Qed.

(** A message with a non-zero length field that is taken from the buffer
    leaves the buffer strictly shorter. *)
Lemma readKcpMsg_consumes c c' :
  0 < frame_len (kcpInBuf_ c) -> readKcpMsg c = Ret (true, c') ->
  (length (kcpInBuf_ c') < length (kcpInBuf_ c))%nat.
Proof.
  intros Hlen Hread.
  destruct (readKcpMsg_true_inv _ _ Hread) as [[H4 Ha] ->].
  rewrite length_drop. lia.
Qed.

(** As long as no message in the buffer has a length field of 0, the decode
    loop ends within one call more than there are buffered bytes. *)
Lemma readKcpMsg_loop_terminates n c :
  (length (kcpInBuf_ c) < n)%nat -> no_empty_frame n (kcpInBuf_ c) ->
  exists r, readKcpMsg_loop n c = Some r.
Proof.
  revert c. induction n as [|n IH]; intros c Hlen Hframes; [lia|].
  cbn [readKcpMsg_loop].
  destruct (readKcpMsg c) as [[[] c']|] eqn:Hstep; [|eauto..].
  destruct (readKcpMsg_true_inv _ _ Hstep) as [Ha Hbuf].
  destruct (Hframes Ha) as [Hpos Hrest].
  apply IH; rewrite Hbuf; [|done].
  destruct Ha as [_ Ha]. rewrite length_drop. lia.
Qed.

(** ** Wire bytes of the scenarios *)

(** The handshake datagram for [conv = 0x12345678]. *)
Example initKCPConvPkg_example :
  initKCPConvPkg example_conv
  = [Byte.x00; Byte.x00; Byte.x00; Byte.x00;
     Byte.x78; Byte.x56; Byte.x34; Byte.x12;
     Byte.x79; Byte.x56; Byte.x34; Byte.x12].
Proof. reflexivity. Qed.

(** The keep-alive message is [05 00 00 00 02]. *)
Example kcpKeepAlive_example c :
  kcpSent (kcpKeepAlive c)
  = kcpSent c ++ [[Byte.x05; Byte.x00; Byte.x00; Byte.x00; Byte.x02]].
Proof. reflexivity. Qed.

(** [hello] read from the connection with index 2 goes out as
    [09 00 02 00 68 65 6c 6c 6f]. *)
Example recvData_hello_example :
  recvData 1%positive hello client_235
  = Ret (set_kcpSent
           [[Byte.x09; Byte.x00; Byte.x02; Byte.x00;
             Byte.x68; Byte.x65; Byte.x6c; Byte.x6c; Byte.x6f]] client_235).
Proof. reflexivity. Qed.

(** A local error on the connection with index 3 sends
    [07 00 00 00 01 03 00] and removes index 3. *)
Example cb_tcpEvent_example :
  exists c',
    cb_tcpEvent 2%positive client_235 = Ret c'
    /\ kcpSent c'
       = [[Byte.x07; Byte.x00; Byte.x00; Byte.x00; Byte.x01; Byte.x03; Byte.x00]]
    /\ conns_ c' !! 3 = None
    /\ conns_ c' !! 2 = Some 1%positive
    /\ conns_ c' !! 5 = Some 4%positive.
Proof. eexists. split; [reflexivity|]. repeat split. Qed.

(** Six buffered bytes under a length field of 7 are not a whole message
    yet. *)
Example readKcpMsg_incomplete_example :
  readKcpMsg
    (set_kcpInBuf [Byte.x07; Byte.x00; Byte.x02; Byte.x00; Byte.x77; Byte.x6f]
       client_235)
  = Ret (false,
         set_kcpInBuf [Byte.x07; Byte.x00; Byte.x02; Byte.x00; Byte.x77; Byte.x6f]
           client_235).
Proof. reflexivity. Qed.

(** ** The properties on concrete clients *)

Lemma client_235_live : table_live client_235.
Proof.
  intros k p Hk. apply elem_of_list_to_map_2 in Hk.
  repeat (apply elem_of_cons in Hk as [[= -> ->]|Hk];
          [eexists; split; reflexivity|]).
  by apply elem_of_nil in Hk.
Defined.

(** The data message for [hello] on index 2 is [09 00 02 00 68 65 6c 6c 6f]
    and is delivered to the session of index 2. *)
Lemma data_frame_roundtrip_witness :
  kcpDataMsg 2 hello
  = [Byte.x09; Byte.x00; Byte.x02; Byte.x00;
     Byte.x68; Byte.x65; Byte.x6c; Byte.x6c; Byte.x6f]
  /\ readKcpMsg client_hello_in
     = Ret (true,
            set_sessions
              (<[1%positive := mkSession 2 7 None None hello]>
                 (sessions client_hello_in))
              (set_kcpInBuf [] client_hello_in)).
Proof.
  split; [reflexivity|].
  destruct (data_frame_roundtrip 2 hello client_hello_in)
    as (_ & _ & Hlive & _); [lia | lia | simpl; lia | reflexivity |].
  exact (Hlive 1%positive (session_at 2 7) eq_refl eq_refl).
Defined.

Lemma readKcpMsg_decode_contract_witness :
  readKcpMsg client_partial_in = Ret (false, client_partial_in)
  /\ exists c', readKcpMsg client_hello_in = Ret (true, c').
Proof.
  split.
  - apply (readKcpMsg_decode_contract client_partial_in).
    intros [H4 _]. vm_compute in H4. by apply H4.
  - apply (readKcpMsg_decode_contract client_hello_in).
    + split; vm_compute; discriminate.
    + exact client_235_live.
    + split; [vm_compute; discriminate|].
      intros Hidx. vm_compute in Hidx. discriminate Hidx.
Defined.

Lemma tcp_input_chunking_witness :
  exists frames : list (list byte),
    handleIncomingTCPMesasge 1%positive hello client_235
    = Ret (set_kcpSent (kcpSent client_235 ++ frames) client_235)
    /\ concat (map (drop 4) frames) = hello
    /\ Forall (fun f => f = kcpDataMsg (connIdx_ (session_at 2 7)) (drop 4 f)
                        /\ 0 < N.of_nat (length (drop 4 f)) <= 65531) frames
    /\ (hello = [] -> frames = []).
Proof.
  apply (tcp_input_chunking 1%positive (session_at 2 7) hello client_235).
  reflexivity.
Defined.

Lemma remote_close_conn_witness :
  readKcpMsg client_close3_in
  = Ret (true,
         set_sessions (delete 2%positive (sessions client_close3_in))
           (set_conns (delete 3 (conns_ client_close3_in))
              (set_kcpInBuf [] client_close3_in))).
Proof.
  destruct (remote_close_conn 3 [] client_close3_in) as [Hrun _];
    [lia | exact client_235_live | reflexivity |].
  exact Hrun.
Defined.

Lemma handshake_completion_witness :
  handleIncomingUDPMesasge (initKCPConvPkg example_conv) (mkKcpReply 0 []) 1
    (Client_new example_conv 0 0)
  = Some (Ret (set_isInitKCPConv true (Client_new example_conv 0 0)))
  /\ udpSent (checkInitKCP 105 client_waiting)
     = udpSent client_waiting ++ [initKCPConvPkg example_conv]
  /\ udpSent (checkInitKCP 111 client_waiting) = udpSent client_waiting
  /\ running_ (checkInitKCP 111 client_waiting) = false
  /\ loopExit (base_ (checkInitKCP 111 client_waiting)) = true.
Proof.
  destruct (handshake_completion (Client_new example_conv 0 0)
              (initKCPConvPkg example_conv) (mkKcpReply 0 []) 1)
    as (Hecho & _ & _ & _); [reflexivity | reflexivity |].
  destruct (handshake_completion client_waiting [] (mkKcpReply 0 []) 1)
    as (_ & _ & Htick & Hlate); [reflexivity | reflexivity |].
  split; [exact (Hecho eq_refl)|].
  split; [apply (Htick 105%Z); simpl; lia|].
  destruct (Hlate 111%Z 100%Z eq_refl) as (Hsent & Hrun & Hexit & _);
    [lia|].
  split; [exact Hsent|]. split; [exact Hrun|exact Hexit].
Defined.


(** ** Where the code departs from a stated property *)

(** The handshake datagram is not sent again by a timer run that comes more
    than ten seconds after the first: at second 111, for a client waiting
    since second 100, nothing is sent and the client gives up. *)
Lemma handshake_retransmit_stops :
  ~ (forall (c : Client) (now : Z),
       isInitKCPConv_ c = false ->
       udpSent (checkInitKCP now c)
       = udpSent c ++ [initKCPConvPkg (kcpConv_ c)]).
Proof.
  intros H. specialize (H client_waiting 111%Z eq_refl). discriminate H.
Qed.

(** * Further properties of the code *)

(** ** Self-delimiting messages and the stream *)

Lemma self_delimiting_frame (f more : list byte) :
  self_delimiting f ->
  readKcpMsg_frame (f ++ more) = Some (frame_idx f, f, more).
Proof.
  intros [H4 Hlen].
  destruct f as [|b0 [|b1 [|b2 [|b3 f]]]]; cbn [length] in H4; try lia.
  assert (frame_available ((b0 :: b1 :: b2 :: b3 :: f) ++ more)) as Ha.
  { split; cbn [app frame_len] in *; rewrite ?Hlen; cbn [length];
      rewrite ?length_app; lia. }
  rewrite (readKcpMsg_frame_available _ Ha).
  cbn [app frame_len frame_idx] in *. rewrite Hlen, Nat2N.id.
  change (b0 :: b1 :: b2 :: b3 :: f ++ more)
    with ((b0 :: b1 :: b2 :: b3 :: f) ++ more).
  by rewrite take_app_length, drop_app_length.
Qed.

Lemma self_delimiting_kcpDataMsg (i : N) (ch : list byte) :
  N.of_nat (length ch) <= 65531 -> self_delimiting (kcpDataMsg i ch).
Proof.
  intros Hch. unfold self_delimiting, kcpDataMsg, store_u16.
  cbn [app length frame_len]. rewrite load_store_u16 by lia. lia.
Qed.

Lemma self_delimiting_kcpCloseMsg (i : N) : self_delimiting (kcpCloseMsg i).
Proof. rewrite kcpCloseMsg_bytes. split; vm_compute; (discriminate || reflexivity). Qed.

Lemma self_delimiting_kcpKeepAliveMsg : self_delimiting kcpKeepAliveMsg.
Proof. split; vm_compute; (discriminate || reflexivity). Qed.

(** The framing of a whole message does not look at what follows it. *)
Lemma readKcpMsg_frame_app (buf more : list byte) idx msg rest :
  readKcpMsg_frame buf = Some (idx, msg, rest) ->
  readKcpMsg_frame (buf ++ more) = Some (idx, msg, rest ++ more).
Proof.
  intros Hf. apply readKcpMsg_frame_Some in Hf as ([H4 Hlen] & -> & -> & ->).
  destruct buf as [|b0 [|b1 [|b2 [|b3 buf]]]]; cbn [length] in H4; try lia.
  assert (frame_available ((b0 :: b1 :: b2 :: b3 :: buf) ++ more)) as Ha.
  { split; cbn [app frame_len] in *; cbn [length] in *;
      rewrite ?length_app; lia. }
  rewrite (readKcpMsg_frame_available _ Ha).
  cbn [app frame_len frame_idx] in *.
  change (b0 :: b1 :: b2 :: b3 :: buf ++ more)
    with ((b0 :: b1 :: b2 :: b3 :: buf) ++ more).
  rewrite take_app_le, drop_app_le by lia. done.
Qed.

(** The dispatch of a message neither reads nor writes the reassembly
    buffer. *)
Lemma readKcpMsg_dispatch_set_kcpInBuf idx msg buf c :
  readKcpMsg_dispatch idx msg (set_kcpInBuf buf c)
  = c' ← readKcpMsg_dispatch idx msg c; Ret (set_kcpInBuf buf c').
Proof.
  unfold readKcpMsg_dispatch, handleKcpMsg_closeConn, handleKcpMsg,
    removeConnection, sendData.
  client_simpl. repeat case_match; reflexivity.
Qed.

Lemma readKcpMsg_app more c c' :
  readKcpMsg c = Ret (true, c') ->
  readKcpMsg (set_kcpInBuf (kcpInBuf_ c ++ more) c)
  = Ret (true, set_kcpInBuf (kcpInBuf_ c' ++ more) c').
Proof.
  unfold readKcpMsg. client_simpl.
  destruct (readKcpMsg_frame (kcpInBuf_ c)) as [[[idx msg] rest]|] eqn:Hf;
    [|discriminate].
  rewrite (readKcpMsg_frame_app _ more _ _ _ Hf).
  rewrite !readKcpMsg_dispatch_set_kcpInBuf.
  destruct (readKcpMsg_dispatch idx msg c) as [c1|]; client_simpl; [|discriminate].
  by intros [= <-].
Qed.

(** X1. While only a proper beginning of a self-delimiting message is in the
    reassembly buffer, [readKcpMsg] asks for more and changes nothing. *)
Theorem readKcpMsg_partial_message (f : list byte) (n : nat) (c : Client) :
  self_delimiting f -> (n < length f)%nat -> kcpInBuf_ c = take n f ->
  readKcpMsg c = Ret (false, c).
Proof.
  intros [H4 Hlen] Hn Hbuf. apply readKcpMsg_need_more. rewrite Hbuf.
  intros [Hn4 Ha]. rewrite length_take in Hn4, Ha.
  destruct f as [|b0 [|b1 f]]; cbn [length] in *; try lia.
  destruct n as [|[|n]]; cbn [take length] in *; try lia.
  cbn [frame_len] in *. lia.
Qed.

(** X2. What [readKcpMsg] does with a whole message does not depend on the
    bytes that follow it in the reassembly buffer: with more bytes appended
    the same message is taken, the same dispatch happens, and the appended
    bytes stay behind it. *)
Theorem readKcpMsg_ignores_following_bytes (more : list byte) (c c' : Client) :
  readKcpMsg c = Ret (true, c') ->
  readKcpMsg (set_kcpInBuf (kcpInBuf_ c ++ more) c)
  = Ret (true, set_kcpInBuf (kcpInBuf_ c' ++ more) c').
Proof. apply readKcpMsg_app. Qed.

Lemma readKcpMsg_loop_mono f c r :
  readKcpMsg_loop f c = Some r ->
  forall f', (f <= f')%nat -> readKcpMsg_loop f' c = Some r.
Proof.
  revert c. induction f as [|f IH]; intros c; [discriminate|].
  intros Hloop [|f'] Hle; [lia|]. cbn [readKcpMsg_loop] in *.
  destruct (readKcpMsg c) as [[[] c']|]; try done.
  apply IH; [done|lia].
Qed.

Lemma readKcpMsg_loop_app more f1 f2 c c1 r :
  readKcpMsg_loop f1 c = Some (Ret c1) ->
  readKcpMsg_loop f2 (set_kcpInBuf (kcpInBuf_ c1 ++ more) c1) = Some r ->
  readKcpMsg_loop (f1 + f2) (set_kcpInBuf (kcpInBuf_ c ++ more) c) = Some r.
Proof.
  revert c. induction f1 as [|f1 IH]; intros c; [discriminate|].
  cbn [readKcpMsg_loop].
  destruct (readKcpMsg c) as [[[] c']|] eqn:Hstep; [| |discriminate].
  - intros Hloop Hnext. cbn [Nat.add readKcpMsg_loop].
    rewrite (readKcpMsg_app more c c' Hstep). by apply IH.
  - intros [= <-] Hnext. apply readKcpMsg_false_inv in Hstep as [_ ->].
    apply (readKcpMsg_loop_mono f2); [done|lia].
Qed.

(** X3. Stream bytes may arrive in pieces. If the decode loop has ended on
    the bytes received so far, then running it again once [more] has been
    appended to what it left in the buffer gives the same result as one run
    of the loop on all the bytes at once. *)
Theorem readKcpMsg_loop_incremental (more : list byte) (f1 f2 : nat)
    (c c1 : Client) (r : outcome Client) :
  readKcpMsg_loop f1 c = Some (Ret c1) ->
  readKcpMsg_loop f2 (set_kcpInBuf (kcpInBuf_ c1 ++ more) c1) = Some r ->
  readKcpMsg_loop (f1 + f2) (set_kcpInBuf (kcpInBuf_ c ++ more) c) = Some r.
Proof. apply readKcpMsg_loop_app. Qed.

(** ** Delivery of data messages *)

Lemma readKcpMsg_data_live i b rest c q s :
  i <> 0 -> i < 65536 -> N.of_nat (length b) <= 65531 ->
  kcpInBuf_ c = kcpDataMsg i b ++ rest ->
  conns_ c !! i = Some q -> sessions c !! q = Some s ->
  readKcpMsg c =
  Ret (true,
       set_sessions
         (<[q := mkSession (connIdx_ s) (sess_fd s) (bevReadTimeout s)
                   (bevWriteTimeout s) (bevOutput s ++ b)]> (sessions c))
         (set_kcpInBuf rest c)).
Proof.
  intros Hi0 Hi Hb Hbuf Hq Hs. unfold readKcpMsg.
  rewrite Hbuf, readKcpMsg_frame_data by done.
  unfold readKcpMsg_dispatch.
  destruct (N.eqb_spec i KCP_MSG_CONNIDX_NONE) as [|_]; [done|].
  unfold handleKcpMsg. client_simpl. rewrite Hq.
  unfold sendData. client_simpl. by rewrite Hs, kcpDataMsg_payload.
Qed.

Lemma readKcpMsg_loop_data i q chunks tail :
  i <> 0 -> i < 65536 ->
  Forall (fun ch => N.of_nat (length ch) <= 65531) chunks ->
  ~ frame_available tail ->
  forall c s fuel,
    kcpInBuf_ c = concat (map (kcpDataMsg i) chunks) ++ tail ->
    conns_ c !! i = Some q -> sessions c !! q = Some s ->
    (length chunks < fuel)%nat ->
    exists c' s',
      readKcpMsg_loop fuel c = Some (Ret c')
      /\ kcpInBuf_ c' = tail
      /\ sessions c' !! q = Some s'
      /\ bevOutput s' = bevOutput s ++ concat chunks
      /\ connIdx_ s' = connIdx_ s
      /\ conns_ c' = conns_ c
      /\ kcpSent c' = kcpSent c
      /\ (forall q', q' <> q -> sessions c' !! q' = sessions c !! q').
Proof.
  intros Hi0 Hi Hall Htail. induction Hall as [|ch chunks Hch Hall IH];
    intros c s fuel Hbuf Hq Hs Hfuel.
  - destruct fuel as [|fuel]; [cbn in Hfuel; lia|].
    cbn [map concat app] in Hbuf. cbn [readKcpMsg_loop].
    rewrite readKcpMsg_need_more by by rewrite Hbuf.
    exists c, s. rewrite app_nil_r. done.
  - destruct fuel as [|fuel]; [cbn in Hfuel; lia|].
    cbn [map concat] in Hbuf. rewrite <- app_assoc in Hbuf.
    cbn [readKcpMsg_loop].
    rewrite (readKcpMsg_data_live i ch _ c q s) by done.
    destruct (IH (set_sessions
                    (<[q := mkSession (connIdx_ s) (sess_fd s) (bevReadTimeout s)
                              (bevWriteTimeout s) (bevOutput s ++ ch)]>
                       (sessions c))
                    (set_kcpInBuf (concat (map (kcpDataMsg i) chunks) ++ tail) c))
                (mkSession (connIdx_ s) (sess_fd s) (bevReadTimeout s)
                   (bevWriteTimeout s) (bevOutput s ++ ch)) fuel)
      as (c' & s' & Hloop & Hb' & Hs' & Hout & Hidx & Hconns & Hsent & Hother).
    { done. } { done. } { client_simpl. apply lookup_insert_eq. }
    { cbn [length] in Hfuel. lia. }
    exists c', s'. client_simpl. cbn [bevOutput connIdx_] in *.
    repeat split; try done.
    + rewrite Hout. cbn [concat]. by rewrite app_assoc.
    + intros q' Hne. rewrite Hother by done. by rewrite lookup_insert_ne.
Qed.

(** X4. A run of data messages for the index of a live session, followed by
    an incomplete message: the decode loop appends the payloads, in order,
    to the output of that session and to no other, sends nothing, leaves
    the table alone and stops with exactly the incomplete message in the
    buffer. *)
Theorem readKcpMsg_loop_delivers (i : N) (q : ptr) (chunks : list (list byte))
    (tail : list byte) (c : Client) (s : ClientTCPSession) (fuel : nat) :
  i <> 0 -> i < 65536 ->
  Forall (fun ch => N.of_nat (length ch) <= 65531) chunks ->
  ~ frame_available tail ->
  kcpInBuf_ c = concat (map (kcpDataMsg i) chunks) ++ tail ->
  conns_ c !! i = Some q -> sessions c !! q = Some s ->
  (length chunks < fuel)%nat ->
  exists c' s',
    readKcpMsg_loop fuel c = Some (Ret c')
    /\ kcpInBuf_ c' = tail
    /\ sessions c' !! q = Some s'
    /\ bevOutput s' = bevOutput s ++ concat chunks
    /\ connIdx_ s' = connIdx_ s
    /\ conns_ c' = conns_ c
    /\ kcpSent c' = kcpSent c
    /\ (forall q', q' <> q -> sessions c' !! q' = sessions c !! q').
Proof. intros. by apply (readKcpMsg_loop_data i q chunks tail). Qed.

(** ** Chunking, in full *)

Lemma handleIncomingTCPMesasge_chunks p s msg c :
  sessions c !! p = Some s ->
  exists chunks : list (list byte),
    handleIncomingTCPMesasge p msg c
    = Ret (set_kcpSent (kcpSent c ++ map (kcpDataMsg (connIdx_ s)) chunks) c)
    /\ concat chunks = msg
    /\ Forall (fun ch => 0 < N.of_nat (length ch) <= 65531) chunks
    /\ (forall k ch, chunks !! k = Some ch -> (S k < length chunks)%nat ->
          N.of_nat (length ch) = 65531)
    /\ N.of_nat (length chunks) = (N.of_nat (length msg) + 65530) / 65531.
Proof.
  remember (length msg) as n eqn:Hn. revert msg c Hn.
  induction (lt_wf n) as [n _ IH]. intros msg c -> Hs.
  destruct (decide (msg = [])) as [->|Hne].
  - exists []. simp handleIncomingTCPMesasge. cbn [map]. rewrite app_nil_r.
    repeat split; try done. by destruct c.
  - pose proof (chunkLen_bounds msg Hne) as [[H0 H1] H2].
    rewrite (handleIncomingTCPMesasge_step p s) by done.
    set (ch := take (chunkLen msg) msg).
    destruct (IH (length (drop (chunkLen msg) msg))
                ltac:(rewrite length_drop; lia)
                _ (sendKcpMsg (kcpDataMsg (connIdx_ s) ch) c) eq_refl Hs)
      as (chunks & Hrun & Hcat & Hall & Hfull & Hcount).
    assert (length ch = chunkLen msg) as Hlen
      by (unfold ch; rewrite length_take; lia).
    exists (ch :: chunks). repeat split.
    + rewrite Hrun. unfold sendKcpMsg. client_simpl. cbn [map].
      by rewrite <- app_assoc.
    + cbn [concat]. rewrite Hcat. apply take_drop.
    + constructor; [lia|done].
    + intros [|k] ch' Hk Hlast; cbn in Hk.
      * injection Hk as <-. cbn [length] in Hlast.
        destruct chunks as [|ch2 chunks]; [cbn in Hlast; lia|].
        apply (f_equal (@length byte)) in Hcat.
        rewrite length_drop in Hcat. cbn [concat] in Hcat.
        rewrite length_app in Hcat.
        apply Forall_cons in Hall as [Hch2 _].
        unfold chunkLen, maxMsgLen, UINT16_MAX in *. lia.
      * apply (Hfull k); [done|]. cbn [length] in Hlast. lia.
    + cbn [length]. rewrite length_drop in Hcount.
      unfold chunkLen, maxMsgLen, UINT16_MAX in *.
      destruct (N.le_gt_cases (N.of_nat (length msg)) 65531); nlia.
Qed.

(** X5. The input is cut greedily: every data message but the last carries
    65531 bytes, so an input of [n] bytes goes out as
    [(n + 65530) / 65531] messages, each for the index of the session. *)
Theorem tcp_input_greedy_chunks (p : ptr) (s : ClientTCPSession)
    (msg : list byte) (c : Client) :
  sessions c !! p = Some s ->
  exists chunks : list (list byte),
    handleIncomingTCPMesasge p msg c
    = Ret (set_kcpSent (kcpSent c ++ map (kcpDataMsg (connIdx_ s)) chunks) c)
    /\ concat chunks = msg
    /\ (forall k ch, chunks !! k = Some ch -> (S k < length chunks)%nat ->
          N.of_nat (length ch) = 65531)
    /\ N.of_nat (length chunks) = (N.of_nat (length msg) + 65530) / 65531.
Proof.
  intros Hs. destruct (handleIncomingTCPMesasge_chunks p s msg c Hs)
    as (chunks & ? & ? & _ & ? & ?).
  by exists chunks.
Qed.

(** X6. What the chunker sends for the input of a connection, the decoder
    puts together again: when the messages sent for [msg] arrive, in order,
    in the reassembly buffer of a client that has a live session under the
    same non-zero index, the decode loop appends exactly [msg] to the output
    of that session and empties the buffer. *)
Theorem chunk_then_decode (p q : ptr) (s1 s2 : ClientTCPSession)
    (msg : list byte) (c1 c2 : Client) :
  sessions c1 !! p = Some s1 ->
  connIdx_ s1 <> 0 -> connIdx_ s1 < 65536 ->
  conns_ c2 !! connIdx_ s1 = Some q -> sessions c2 !! q = Some s2 ->
  exists c1' frames fuel c2' s2',
    handleIncomingTCPMesasge p msg c1 = Ret c1'
    /\ kcpSent c1' = kcpSent c1 ++ frames
    /\ readKcpMsg_loop fuel (set_kcpInBuf (concat frames) c2) = Some (Ret c2')
    /\ kcpInBuf_ c2' = []
    /\ sessions c2' !! q = Some s2'
    /\ bevOutput s2' = bevOutput s2 ++ msg.
Proof.
  intros Hs1 Hi0 Hi Hq Hs2.
  destruct (handleIncomingTCPMesasge_chunks p s1 msg c1 Hs1)
    as (chunks & Hrun & Hcat & Hall & _ & _).
  destruct (readKcpMsg_loop_data (connIdx_ s1) q chunks [] Hi0 Hi) with
    (c := set_kcpInBuf (concat (map (kcpDataMsg (connIdx_ s1)) chunks)) c2)
    (s := s2) (fuel := S (length chunks))
    as (c2' & s2' & Hloop & Hbuf & Hs2' & Hout & _).
  - eapply Forall_impl; [exact Hall|]. cbn. lia.
  - intros [H4 _]. cbn in H4. lia.
  - client_simpl. by rewrite app_nil_r.
  - done.
  - done.
  - lia.
  - eexists _, _, _, c2', s2'. split; [exact Hrun|]. client_simpl.
    split; [done|]. split; [exact Hloop|]. by rewrite Hout, Hcat.
Qed.

(** ** Control messages and unknown indices *)

Lemma string_u8_at_take buf len b :
  5 <= len -> len <= N.of_nat (length buf) -> buf !! 4%nat = Some b ->
  string_u8_at (take (N.to_nat len) buf) 4 = Some (u8 b).
Proof.
  intros H5 Hlen Hb. unfold string_u8_at, mem_read, c_str.
  rewrite length_app, length_take. cbn [length].
  case_cmp; [|lia].
  change (N.to_nat 4) with 4%nat. change (N.to_nat 1) with 1%nat.
  rewrite drop_app_le by (rewrite length_take; lia).
  rewrite take_app_le by (rewrite length_drop, length_take; lia).
  rewrite skipn_firstn_comm.
  assert (drop 4 buf = b :: drop 5 buf) as ->.
  { apply (drop_S buf b 4) in Hb. done. }
  replace (N.to_nat len - 4)%nat with (S (N.to_nat len - 5)) by lia.
  by cbn [take].
Qed.

(** X7. A control message (index 0) of at least five bytes whose type byte
    is not [0x01] is taken from the reassembly buffer and dropped: the call
    reports a message read and nothing but the buffer changes, so the
    messages behind it are decoded as before. The keep-alive message is
    such a message. *)
Theorem readKcpMsg_unknown_control (b : byte) (c : Client) :
  frame_available (kcpInBuf_ c) ->
  frame_idx (kcpInBuf_ c) = KCP_MSG_CONNIDX_NONE ->
  5 <= frame_len (kcpInBuf_ c) ->
  kcpInBuf_ c !! 4%nat = Some b -> u8 b <> KCP_MSG_TYPE_CLOSE_CONN ->
  readKcpMsg c
  = Ret (true,
         set_kcpInBuf (drop (N.to_nat (frame_len (kcpInBuf_ c))) (kcpInBuf_ c)) c).
Proof.
  intros Ha Hidx H5 Hb Htype. unfold readKcpMsg.
  rewrite (readKcpMsg_frame_available _ Ha), Hidx.
  unfold readKcpMsg_dispatch. rewrite N.eqb_refl.
  rewrite (string_u8_at_take _ _ b) by (done || apply Ha).
  by destruct (N.eqb_spec (u8 b) KCP_MSG_TYPE_CLOSE_CONN).
Qed.


Lemma frame_idx_bound buf : frame_idx buf < 65536.
Proof.
  destruct buf as [|b0 [|b1 [|b2 [|b3 buf]]]]; cbn [frame_idx]; try lia.
  apply load_u16_bound.
Qed.

(** X9. The close message for an index is the seven bytes
    [07 00 00 00 01 lo hi]; the decoder takes it as one control message of
    type [0x01] and reads the same index back, so close messages for
    different indices differ. *)
Theorem kcpCloseMsg_roundtrip (i j : N) (rest : list byte) :
  i < 65536 ->
  kcpCloseMsg i
  = [Byte.x07; Byte.x00; Byte.x00; Byte.x00; Byte.x01;
     byte_of_N i; byte_of_N (i / 256)]
  /\ readKcpMsg_frame (kcpCloseMsg i ++ rest)
     = Some (KCP_MSG_CONNIDX_NONE, kcpCloseMsg i, rest)
  /\ string_u8_at (kcpCloseMsg i) 4 = Some KCP_MSG_TYPE_CLOSE_CONN
  /\ string_u16_at (kcpCloseMsg i) 5 = Some i
  /\ (j < 65536 -> kcpCloseMsg i = kcpCloseMsg j -> i = j).
Proof.
  intros Hi. split; [apply kcpCloseMsg_bytes|].
  split; [apply readKcpMsg_frame_close|].
  split; [apply kcpCloseMsg_type|].
  split; [by apply kcpCloseMsg_connIdx|].
  intros Hj Heq.
  pose proof (kcpCloseMsg_connIdx i Hi) as Hri.
  rewrite Heq, kcpCloseMsg_connIdx in Hri by done. by injection Hri.
Qed.

(** ** Accepting connections *)

(** X10. Accepting a connection never fails and sends nothing. The session
    gets the counter's next value as its index, the socket, an empty output
    and the configured timeouts (a direction without a positive timeout has
    none). If the index is free it now leads to the new session and every
    other entry and every session that existed is as before; if the index
    is taken, the table is left as it is and still leads to the older
    session. *)
Theorem listenerCallback_registers (fd : Z) (c : Client) :
  heap_fresh c ->
  exists c',
    let idx := wrap16 (static_connIdx c + 1) in
    let p := sessionsNext c in
    listenerCallback fd c = Ret (idx, c')
    /\ kcpSent c' = kcpSent c
    /\ sessions c' !! p
       = Some (mkSession idx fd
                 (if (0 <? tcpReadTimeout_ c)%Z then Some (tcpReadTimeout_ c)
                  else None)
                 (if (0 <? tcpWriteTimeout_ c)%Z then Some (tcpWriteTimeout_ c)
                  else None) [])
    /\ (forall q, q <> p -> sessions c' !! q = sessions c !! q)
    /\ sessions c !! p = None
    /\ (forall k, k <> idx -> conns_ c' !! k = conns_ c !! k)
    /\ (conns_ c !! idx = None -> conns_ c' !! idx = Some p)
    /\ (forall q, conns_ c !! idx = Some q -> conns_ c' !! idx = Some q).
Proof.
  intros Hfresh.
  destruct (listenerCallback_spec fd c) as (c' & Hrun & _ & Hconns & Hsess & Hsent).
  exists c'. cbn zeta. split; [done|]. split; [done|].
  rewrite Hsess, Hconns. split; [by rewrite lookup_insert_eq|].
  split; [by intros q Hq; rewrite lookup_insert_ne|].
  split.
  { destruct (sessions c !! sessionsNext c) eqn:E; [|done].
    specialize (Hfresh _ (mk_is_Some _ _ E)). lia. }
  unfold map_insert_pair.
  destruct (conns_ c !! wrap16 (static_connIdx c + 1)) as [q0|] eqn:Hidx.
  - split; [done|]. split; [done|]. by intros q [= <-].
  - split; [by intros k Hk; rewrite lookup_insert_ne|].
    split; [by rewrite lookup_insert_eq|done].
Qed.


Lemma accept_all_indices fds : forall c,
  exists idxs c',
    accept_all fds c = Ret (idxs, c')
    /\ length idxs = length fds
    /\ (forall k idx, idxs !! k = Some idx ->
          idx = wrap16 (static_connIdx c + 1 + N.of_nat k)).
Proof.
  induction fds as [|fd fds IH]; intros c.
  - exists [], c. repeat split; done.
  - cbn [accept_all].
    destruct (listenerCallback_spec fd c) as (c1 & -> & Hst & _).
    client_simpl. cbn [fst snd].
    destruct (IH c1) as (idxs & c' & -> & Hlen & Hidx).
    client_simpl. cbn [fst snd].
    exists (wrap16 (static_connIdx c + 1) :: idxs), c'.
    split; [done|]. split; [cbn [length]; lia|].
    intros [|k] idx Hk; cbn in Hk.
    + injection Hk as <-. f_equal. lia.
    + rewrite (Hidx k idx Hk), Hst. unfold wrap16. nlia.
Qed.

(** X11. Connections accepted in a row get consecutive indices modulo 2^16,
    starting one above the counter. Up to 65536 of them in a row are given
    pairwise different indices, and on a new client the first 65534 of them
    are given 2, 3, ... 65535, none of which is the reserved 0. *)
Theorem accept_all_consecutive (fds : list Z) (c : Client) :
  exists idxs c',
    accept_all fds c = Ret (idxs, c')
    /\ length idxs = length fds
    /\ (forall k idx, idxs !! k = Some idx ->
          idx = wrap16 (static_connIdx c + 1 + N.of_nat k))
    /\ (N.of_nat (length fds) <= 65536 -> NoDup idxs)
    /\ (static_connIdx c = 1 -> N.of_nat (length fds) <= 65534 ->
        forall k idx, idxs !! k = Some idx -> idx = 2 + N.of_nat k /\ idx <> 0).
Proof.
  destruct (accept_all_indices fds c) as (idxs & c' & Hrun & Hlen & Hidx).
  exists idxs, c'. split; [done|]. split; [done|]. split; [done|]. split.
  - intros Hn. apply NoDup_alt. intros j k idx Hj Hk.
    pose proof (lookup_lt_Some _ _ _ Hj). pose proof (lookup_lt_Some _ _ _ Hk).
    apply Hidx in Hj, Hk. rewrite Hj in Hk. unfold wrap16 in Hk. nlia.
  - intros Hst Hn k idx Hk. pose proof (lookup_lt_Some _ _ _ Hk).
    apply Hidx in Hk. rewrite Hst in Hk. unfold wrap16 in Hk. nlia.
Qed.

(** ** What every callback keeps *)

Lemma reachable_step_ind (P : Client -> Prop) :
  (forall conv rto wto, P (Client_new conv rto wto)) ->
  (forall c c', P c -> callback_step c c' -> P c') ->
  forall c, reachable c -> P c.
Proof.
  intros Hnew Hstep c Hc.
  induction Hc as [conv rto wto | fd c idx c' _ IH Hrun
                  | session readable c c' _ IH Hrun
                  | session c c' _ IH Hrun | data c _ IH
                  | c r c' _ IH Hrun | p c r c' _ IH Hrun | now c _ IH
                  | c _ IH | c _ IH | c c' _ IH Hrun | c _ IH | c _ IH].
  - apply Hnew.
  - apply (Hstep c c' IH). exact (step_accept fd c idx c' Hrun).
  - apply (Hstep c c' IH). exact (step_tcp_read session readable c c' Hrun).
  - apply (Hstep c c' IH). exact (step_tcp_event session c c' Hrun).
  - apply (Hstep c _ IH). exact (step_kcp_recv data c).
  - apply (Hstep c c' IH). exact (step_readKcpMsg c r c' Hrun).
  - apply (Hstep c c' IH). exact (step_handshake p c r c' Hrun).
  - apply (Hstep c _ IH). exact (step_checkInitKCP now c).
  - apply (Hstep c _ IH). exact (step_sendInit c).
  - apply (Hstep c _ IH). exact (step_keepAlive c).
  - apply (Hstep c c' IH). exact (step_stop c c' Hrun).
  - apply (Hstep c _ IH). exact (step_exitLoop c).
  - apply (Hstep c _ IH). exact (step_setup_listen c).
Qed.

Lemma logs_same c c' :
  kcpConv_ c' = kcpConv_ c -> kcpSent c' = kcpSent c ->
  udpSent c' = udpSent c -> logs_extended c c'.
Proof.
  intros Hconv Hk Hu. split; [done|].
  split; exists []; by rewrite app_nil_r.
Qed.

Lemma logs_kcp f c c' :
  kcpConv_ c' = kcpConv_ c -> kcpSent c' = kcpSent c ++ [f] ->
  self_delimiting f -> udpSent c' = udpSent c -> logs_extended c c'.
Proof.
  intros Hconv Hk Hf Hu. split; [done|]. split.
  - exists [f]. split; [done|]. by constructor.
  - exists []. by rewrite app_nil_r.
Qed.

Lemma logs_udp c c' :
  kcpConv_ c' = kcpConv_ c -> kcpSent c' = kcpSent c ->
  udpSent c' = udpSent c ++ [initKCPConvPkg (kcpConv_ c)] ->
  logs_extended c c'.
Proof.
  intros Hconv Hk Hu. split; [done|]. split.
  - exists []. by rewrite app_nil_r.
  - eexists. split; [done|]. by constructor.
Qed.

Lemma logs_trans c1 c2 c3 :
  logs_extended c1 c2 -> logs_extended c2 c3 -> logs_extended c1 c3.
Proof.
  intros (Hc1 & (fs1 & Hk1 & Hf1) & (ds1 & Hu1 & Hd1))
         (Hc2 & (fs2 & Hk2 & Hf2) & (ds2 & Hu2 & Hd2)).
  split; [congruence|]. split.
  - exists (fs1 ++ fs2). rewrite Hk2, Hk1, app_assoc. split; [done|].
    by apply Forall_app.
  - exists (ds1 ++ ds2). rewrite Hu2, Hu1, app_assoc. split; [done|].
    apply Forall_app. split; [done|]. by rewrite <- Hc1.
Qed.

Lemma removeConnection_logs p b c c' :
  removeConnection p b c = Ret c' -> logs_extended c c'.
Proof.
  unfold removeConnection. destruct (sessions c !! p) as [s|]; [|discriminate].
  intros [= <-]. destruct b.
  - apply (logs_kcp (kcpCloseMsg (connIdx_ s)));
      [done | done | apply self_delimiting_kcpCloseMsg | done].
  - by apply logs_same.
Qed.

Lemma handleIncomingTCPMesasge_logs p msg c c' :
  handleIncomingTCPMesasge p msg c = Ret c' -> logs_extended c c'.
Proof.
  destruct msg as [|b bs].
  - simp handleIncomingTCPMesasge. intros [= <-]. by apply logs_same.
  - destruct (sessions c !! p) as [s|] eqn:Hs.
    + destruct (handleIncomingTCPMesasge_chunks p s (b :: bs) c Hs)
        as (chunks & -> & _ & Hall & _).
      intros [= <-]. split; [done|]. split.
      * eexists. split; [done|]. apply Forall_fmap.
        eapply Forall_impl; [exact Hall|]. cbn. intros ch Hch.
        apply self_delimiting_kcpDataMsg. lia.
      * exists []. by rewrite app_nil_r.
    + simp handleIncomingTCPMesasge. rewrite Hs.
      by simp handleIncomingTCPMesasge.
Qed.

Lemma readKcpMsg_logs c r c' :
  readKcpMsg c = Ret (r, c') -> logs_extended c c'.
Proof.
  unfold readKcpMsg.
  destruct (readKcpMsg_frame (kcpInBuf_ c)) as [[[idx msg] rest]|];
    [|by intros [= _ <-]; apply logs_same].
  destruct (readKcpMsg_dispatch _ _ _) as [c1|] eqn:Hd; [|discriminate].
  intros [= _ <-]. revert Hd.
  change (logs_extended c c1) with (logs_extended (set_kcpInBuf rest c) c1).
  unfold readKcpMsg_dispatch, handleKcpMsg_closeConn, handleKcpMsg, sendData.
  repeat case_match; try discriminate.
  - apply removeConnection_logs.
  - intros [= <-]. by apply logs_same.
  - intros [= <-]. by apply logs_same.
  - intros [= <-]. by apply logs_same.
  - intros [= <-]. apply (logs_kcp (kcpCloseMsg idx));
      [done | done | apply self_delimiting_kcpCloseMsg | done].
Qed.

Lemma stop_loop_logs todo c c' :
  stop_loop todo c = Ret c' -> logs_extended c c'.
Proof.
  revert c. induction todo as [|[k p] todo IH]; intros c; cbn [stop_loop].
  - intros [= <-]. by apply logs_same.
  - destruct (conns_ c !! k) as [session|]; [|by apply IH].
    destruct (removeConnection session true c) as [c1|] eqn:Hrm;
      client_simpl; [|discriminate].
    destruct (conns_ c1 !! k); [|discriminate].
    intros Hloop. apply (logs_trans c c1); [|by apply IH].
    by apply removeConnection_logs in Hrm.
Qed.

Lemma stop_logs c c' : stop c = Ret c' -> logs_extended c c'.
Proof.
  unfold stop. destruct (running_ c); cbn [negb].
  - destruct (stop_loop _ _) as [c3|] eqn:Hloop; client_simpl; [|discriminate].
    intros [= <-]. apply stop_loop_logs in Hloop.
    apply (logs_trans _ c3); [exact Hloop|]. by apply logs_same.
  - intros [= <-]. by apply logs_same.
Qed.

Lemma callback_step_logs c c' : callback_step c c' -> logs_extended c c'.
Proof.
  intros Hstep. destruct Hstep as [fd c idx c' Hstep
                 | session readable c c' Hstep
                 | session c c' Hstep | data c
                 | c r c' Hstep | p c r c' Hstep | now c
                 | c | c | c c' Hstep | c | c].
  - unfold listenerCallback, addConnection in Hstep. client_simpl.
    rewrite lookup_insert_eq in Hstep. client_simpl.
    injection Hstep as _ <-. by apply logs_same.
  - by apply (handleIncomingTCPMesasge_logs session readable).
  - by apply (removeConnection_logs session true).
  - by apply logs_same.
  - by apply (readKcpMsg_logs c r).
  - unfold recvInitKCPConvPkg in Hstep.
    repeat case_match; try discriminate; injection Hstep as _ <-;
      by apply logs_same.
  - unfold checkInitKCP. client_simpl. repeat case_match.
    + by apply logs_same.
    + by apply logs_same.
    + by apply logs_udp.
  - by apply logs_udp.
  - apply (logs_kcp kcpKeepAliveMsg);
      [done | done | apply self_delimiting_kcpKeepAliveMsg | done].
  - by apply stop_logs.
  - by apply logs_same.
  - by apply logs_same.
Qed.

Lemma reachable_logs c :
  reachable c ->
  Forall self_delimiting (kcpSent c)
  /\ Forall (fun d => d = initKCPConvPkg (kcpConv_ c)) (udpSent c).
Proof.
  revert c. apply reachable_step_ind.
  - intros conv rto wto. split; constructor.
  - intros c c' [Hk Hu] Hstep.
    destruct (callback_step_logs c c' Hstep)
      as (Hconv & (fs & -> & Hfs) & (ds & -> & Hds)).
    rewrite Hconv. split; apply Forall_app; done.
Qed.

(** X12. Whatever the callbacks have done, every message the client has
    handed to the KCP engine is self-delimiting: its length field is its
    size, so the decoder at the other end of the stream takes exactly that
    message, whatever follows it. *)
Theorem outbound_messages_self_delimiting (c : Client) :
  reachable c ->
  forall f, f ∈ kcpSent c ->
    4 <= N.of_nat (length f) <= 65535
    /\ frame_len f = N.of_nat (length f)
    /\ forall more, readKcpMsg_frame (f ++ more) = Some (frame_idx f, f, more).
Proof.
  intros Hc f Hf. destruct (reachable_logs c Hc) as [Hall _].
  rewrite Forall_forall in Hall. specialize (Hall f Hf).
  pose proof Hall as [H4 Hlen]. pose proof (frame_len_bound f).
  split; [lia|]. split; [done|]. intros more.
  by apply self_delimiting_frame.
Qed.

(** X13. The only datagrams the client itself puts on the UDP socket are
    copies of the twelve-byte handshake datagram of its conversation id. *)
Theorem raw_datagrams_are_handshake (c : Client) :
  reachable c ->
  forall d, d ∈ udpSent c -> d = initKCPConvPkg (kcpConv_ c).
Proof.
  intros Hc d Hd. destruct (reachable_logs c Hc) as [_ Hall].
  rewrite Forall_forall in Hall. by apply Hall.
Qed.

(** X14. No callback changes the conversation id, and none takes back or
    alters what was already handed to the KCP engine or to the socket: both
    logs only grow at the end. *)
Theorem callback_step_append_only (c c' : Client) :
  callback_step c c' ->
  kcpConv_ c' = kcpConv_ c
  /\ kcpSent c `prefix_of` kcpSent c'
  /\ udpSent c `prefix_of` udpSent c'.
Proof.
  intros Hstep.
  destruct (callback_step_logs c c' Hstep)
    as (Hconv & (fs & Hk & _) & (ds & Hu & _)).
  split; [done|]. split; [by exists fs|by exists ds].
Qed.

(** X15. In every state the client reaches, each entry of the connection
    table leads to a live session that carries the entry's index, no two
    entries lead to the same session, and the address the next session will
    get is not in use. *)
Theorem reachable_table_consistent (c : Client) :
  reachable c ->
  (forall k p, conns_ c !! k = Some p ->
     exists s, sessions c !! p = Some s /\ connIdx_ s = k)
  /\ (forall k1 k2 p, conns_ c !! k1 = Some p -> conns_ c !! k2 = Some p ->
        k1 = k2)
  /\ sessions c !! sessionsNext c = None.
Proof.
  intros Hc. destruct (reachable_wf c Hc) as [Hlive Hfresh].
  split; [exact Hlive|]. split.
  - intros k1 k2 p H1 H2.
    destruct (Hlive _ _ H1) as (s1 & Hs1 & <-).
    destruct (Hlive _ _ H2) as (s2 & Hs2 & <-). congruence.
  - destruct (sessions c !! sessionsNext c) eqn:E; [|done].
    specialize (Hfresh _ (mk_is_Some _ _ E)). lia.
Qed.

(** * The handshake block of [setup], [stop] and the UDP callback *)

Lemma checkInitKCP_tick t0 now c :
  isInitKCPConv_ c = false -> static_startTime c = Some t0 ->
  (now <= t0 + 10)%Z ->
  checkInitKCP now c = sendInitKCPConvPkg c.
Proof.
  intros Hflag Hstart Hnow. rewrite checkInitKCP_retransmit; [|done|].
  - rewrite Hstart. destruct c; cbn in *. by subst.
  - rewrite Hstart. cbn. lia.
Qed.

Lemma checkInitKCP_first_tick now c :
  isInitKCPConv_ c = false -> static_startTime c = None ->
  checkInitKCP now c
  = sendInitKCPConvPkg (set_static_startTime (Some now) c).
Proof.
  intros Hflag Hstart. rewrite checkInitKCP_retransmit; [|done|].
  - by rewrite Hstart.
  - rewrite Hstart. cbn. lia.
Qed.

Lemma setup_dispatch_ticks t0 ticks evs c :
  isInitKCPConv_ c = false -> loop_stopped c = false ->
  static_startTime c = Some t0 ->
  Forall (fun t => (t <= t0 + 10)%Z) ticks ->
  setup_dispatch (map SetupTimer ticks ++ evs) c
  = setup_dispatch evs (after_ticks t0 (length ticks) c).
Proof.
  intros Hflag Hloop Hstart Hticks. revert c Hflag Hloop Hstart.
  induction Hticks as [|t ticks Ht _ IH]; intros c Hflag Hloop Hstart.
  - cbn [map app length]. f_equal. unfold after_ticks.
    destruct c; cbn in *. subst. by rewrite app_nil_r.
  - cbn [map app length setup_dispatch].
    rewrite (checkInitKCP_tick t0) by done.
    change (loop_stopped (sendInitKCPConvPkg c)) with (loop_stopped c).
    rewrite Hloop, IH by done. f_equal. unfold after_ticks, sendInitKCPConvPkg.
    destruct c; cbn in *. by rewrite <- app_assoc.
Qed.

Lemma setup_dispatch_first_ticks now ticks evs c :
  isInitKCPConv_ c = false -> loop_stopped c = false ->
  static_startTime c = None ->
  Forall (fun t => (t <= hd now ticks + 10)%Z) ticks ->
  setup_dispatch (map SetupTimer ticks ++ evs) c
  = setup_dispatch evs
      (if ticks is [] then c else after_ticks (hd now ticks) (length ticks) c).
Proof.
  intros Hflag Hloop Hstart Hticks. destruct ticks as [|t0 ticks]; [done|].
  cbn [hd] in *. apply Forall_cons in Hticks as [_ Hticks].
  cbn [map app length setup_dispatch].
  rewrite checkInitKCP_first_tick by done.
  change (loop_stopped (sendInitKCPConvPkg (set_static_startTime (Some t0) c)))
    with (loop_stopped c).
  rewrite Hloop, (setup_dispatch_ticks t0) by done. f_equal.
  unfold after_ticks, sendInitKCPConvPkg.
  destruct c; cbn in *. by rewrite <- app_assoc.
Qed.

(** X16. The handshake block of [setup] when the peer answers. The datagram
    is sent once at the start and once more by every timer run before the
    echo; the echo itself only sets the flag, and it is the next timer run
    that breaks the loop, sending nothing. [setup] then goes on exactly when
    the client was running; nothing went to the KCP engine and the table is
    as it was. *)
Theorem setup_initKCP_echo (ticks : list Z) (now : Z) (kcp : KcpReply)
    (fuel : nat) (rest : list setup_event) (c : Client) :
  kcpConv_ c < 4294967296 -> isInitKCPConv_ c = false ->
  loop_stopped c = false -> static_startTime c = None ->
  Forall (fun t => (t <= hd now ticks + 10)%Z) ticks ->
  exists c',
    setup_initKCP
      (map SetupTimer ticks
         ++ SetupUdp (initKCPConvPkg (kcpConv_ c)) kcp fuel
         :: SetupTimer now :: rest) c
    = Some (Ret (running_ c, c'))
    /\ isInitKCPConv_ c' = true
    /\ loopBreak (base_ c') = true
    /\ loopExit (base_ c') = loopExit (base_ c)
    /\ udpSent c'
       = udpSent c ++ replicate (S (length ticks)) (initKCPConvPkg (kcpConv_ c))
    /\ kcpSent c' = kcpSent c
    /\ conns_ c' = conns_ c.
Proof.
  intros Hconv Hflag Hloop Hstart Hticks. unfold setup_initKCP.
  rewrite (setup_dispatch_first_ticks now) by done.
  set (c1 := if ticks is [] then sendInitKCPConvPkg c
             else after_ticks (hd now ticks) (length ticks)
                    (sendInitKCPConvPkg c)).
  assert (Hc1 : kcpConv_ c1 = kcpConv_ c /\ isInitKCPConv_ c1 = false
                /\ loop_stopped c1 = false /\ running_ c1 = running_ c
                /\ base_ c1 = base_ c /\ kcpSent c1 = kcpSent c
                /\ conns_ c1 = conns_ c
                /\ udpSent c1 = udpSent c
                     ++ replicate (S (length ticks))
                          (initKCPConvPkg (kcpConv_ c))).
  { subst c1. destruct ticks as [|t ticks]; cbn; [done|].
    repeat split; try done. by rewrite <- app_assoc. }
  destruct Hc1 as (Hk & Hf & Hl & Hr & Hb & Hs & Hcn & Hu).
  cbn [setup_dispatch]. rewrite <- Hk.
  rewrite handleIncomingUDPMesasge_echo by (by rewrite Hk).
  change (loop_stopped (set_isInitKCPConv true c1)) with (loop_stopped c1).
  rewrite Hl. unfold checkInitKCP, loop_stopped. cbn.
  eexists. split; [by rewrite Hr|]. cbn. rewrite Hb, Hu, Hs, Hcn, Hk. done.
Qed.

(** X17. The handshake block of [setup] when no echo comes. The ten seconds
    are counted from the first timer run, not from the first datagram: every
    timer run up to ten seconds after that first run sends the datagram
    again, and the first run later than that sends nothing, clears
    [running_] and exits the loop, so that [setup] fails. *)
Theorem setup_initKCP_timeout (t0 : Z) (ticks : list Z) (now : Z)
    (rest : list setup_event) (c : Client) :
  isInitKCPConv_ c = false -> loop_stopped c = false ->
  static_startTime c = None ->
  Forall (fun t => (t <= t0 + 10)%Z) ticks -> (t0 + 10 < now)%Z ->
  exists c',
    setup_initKCP (map SetupTimer (t0 :: ticks) ++ SetupTimer now :: rest) c
    = Some (Ret (false, c'))
    /\ running_ c' = false
    /\ loopExit (base_ c') = true
    /\ isInitKCPConv_ c' = false
    /\ udpSent c'
       = udpSent c
           ++ replicate (2 + length ticks) (initKCPConvPkg (kcpConv_ c))
    /\ kcpSent c' = kcpSent c.
Proof.
  intros Hflag Hloop Hstart Hticks Hnow. unfold setup_initKCP.
  rewrite (setup_dispatch_first_ticks now (t0 :: ticks)); try done.
  2:{ cbn [hd]. constructor; [lia|done]. }
  cbn [hd length setup_dispatch].
  rewrite (checkInitKCP_timeout _ now t0); [|done|done|lia].
  unfold loop_stopped, exitLoop. cbn. rewrite orb_true_r.
  eexists. split; [done|]. cbn. by rewrite <- app_assoc.
Qed.

(** X18. [stop] on a running client without connections sends nothing,
    clears [running_], disables the listener and arms the exit timer of
    three seconds, whose callback exits the loop; a second [stop] then
    changes nothing at all. *)
Theorem stop_drained_once (c : Client) :
  running_ c = true -> conns_ c = ∅ ->
  exists c',
    stop c = Ret c'
    /\ running_ c' = false
    /\ listenerEnabled (base_ c') = false
    /\ exitEvTimer_ (base_ c') = Some 3%Z
    /\ kcpSent c' = kcpSent c
    /\ udpSent c' = udpSent c
    /\ sessions c' = sessions c
    /\ stop c' = Ret c'
    /\ loopExit (base_ (cb_exitLoop c')) = true.
Proof.
  intros Hrun Hempty. unfold stop at 1. rewrite Hrun. client_simpl.
  rewrite Hempty. unfold map_entries. rewrite map_to_list_empty.
  cbn. eexists. split; [done|]. cbn. repeat split; try done.
Qed.

Lemma readKcpMsg_replies c r c' :
  readKcpMsg c = Ret (r, c') ->
  udpSent c' = udpSent c
  /\ (kcpSent c' = kcpSent c
      \/ exists idx, idx <> 0 /\ conns_ c !! idx = None
                     /\ kcpSent c' = kcpSent c ++ [kcpCloseMsg idx]).
Proof.
  unfold readKcpMsg.
  destruct (readKcpMsg_frame (kcpInBuf_ c)) as [[[idx msg] rest]|];
    [|by intros [= _ <-]; split; [|left]].
  destruct (readKcpMsg_dispatch _ _ _) as [c1|] eqn:Hd; [|discriminate].
  intros [= _ <-]. revert Hd.
  unfold readKcpMsg_dispatch, handleKcpMsg_closeConn, handleKcpMsg, sendData,
    removeConnection.
  repeat case_match; try discriminate; intros [= <-]; cbn;
    try (split; [done|by left]).
  split; [done|]. right. exists idx.
  match goal with H : (idx =? _) = false |- _ => apply N.eqb_neq in H end.
  done.
Qed.

Lemma readKcpMsg_loop_replies fuel c c' :
  readKcpMsg_loop fuel c = Some (Ret c') ->
  udpSent c' = udpSent c /\ kcpConv_ c' = kcpConv_ c
  /\ exists idxs, kcpSent c' = kcpSent c ++ map kcpCloseMsg idxs
                  /\ Forall (fun i => i <> KCP_MSG_CONNIDX_NONE) idxs.
Proof.
  revert c. induction fuel as [|fuel IH]; intros c; [discriminate|].
  cbn [readKcpMsg_loop].
  destruct (readKcpMsg c) as [[[] c1]|] eqn:Hstep; [| |discriminate].
  - intros Hloop. destruct (IH _ Hloop) as (Hu & Hk & idxs & Hs & Hall).
    destruct (readKcpMsg_replies _ _ _ Hstep) as [Hu1 Hs1].
    pose proof (readKcpMsg_logs _ _ _ Hstep) as [Hk1 _].
    split; [congruence|]. split; [congruence|].
    destruct Hs1 as [Hs1|(idx & Hidx & _ & Hs1)].
    + exists idxs. by rewrite Hs, Hs1.
    + exists (idx :: idxs). split; [|by constructor].
      rewrite Hs, Hs1, <- app_assoc. done.
  - intros [= <-]. destruct (readKcpMsg_replies _ _ _ Hstep) as [Hu1 Hs1].
    pose proof (readKcpMsg_logs _ _ _ Hstep) as [Hk1 _].
    split; [done|]. split; [done|].
    destruct Hs1 as [Hs1|(idx & Hidx & _ & Hs1)].
    + exists []. by rewrite app_nil_r.
    + exists [idx]. split; [done|by constructor].
Qed.

(** X19. Whatever comes in on the UDP socket, the callback puts no datagram
    of its own on the socket and keeps the conversation id, and all it hands
    to the KCP engine are close messages, none of them for the reserved
    index 0. A failed [recvfrom] changes nothing. *)
Theorem cb_udpRead_replies (res : option (list byte)) (kcp : KcpReply)
    (fuel : nat) (c c' : Client) :
  cb_udpRead None kcp fuel c = Some (Ret c)
  /\ (cb_udpRead res kcp fuel c = Some (Ret c') ->
      udpSent c' = udpSent c /\ kcpConv_ c' = kcpConv_ c
      /\ exists idxs, kcpSent c' = kcpSent c ++ map kcpCloseMsg idxs
                      /\ Forall (fun i => i <> KCP_MSG_CONNIDX_NONE) idxs).
Proof.
  split; [done|]. destruct res as [inData|]; cbn [cb_udpRead].
  2:{ intros [= <-]. repeat split. exists []. by rewrite app_nil_r. }
  unfold handleIncomingUDPMesasge.
  assert (Hh : forall b c1,
             (if N.of_nat (length inData) =? 12
              then recvInitKCPConvPkg inData c else Ret (false, c))
             = Ret (b, c1) ->
             udpSent c1 = udpSent c /\ kcpConv_ c1 = kcpConv_ c
             /\ kcpSent c1 = kcpSent c /\ kcpInBuf_ c1 = kcpInBuf_ c).
  { intros b c1. destruct (_ =? 12).
    - unfold recvInitKCPConvPkg.
      repeat case_match; try discriminate; by intros [= _ <-].
    - by intros [= _ <-]. }
  destruct (if N.of_nat (length inData) =? 12 then _ else _)
    as [[[] c1]|]; [| |discriminate].
  - destruct (Hh _ _ eq_refl) as (Hu & Hk & Hs & _). intros [= <-].
    repeat split; try done. exists []. by rewrite app_nil_r.
  - destruct (Hh _ _ eq_refl) as (Hu & Hk & Hs & _).
    destruct (ikcp_input_res kcp <? 0)%Z.
    { intros [= <-]. repeat split; try done. exists []. by rewrite app_nil_r. }
    destruct (readKcpMsg_loop _ _) as [[c2|]|] eqn:Hloop; try discriminate.
    unfold kcpUpdateManually. destruct (kcpUpdateTimer_ _); [|discriminate].
    intros [= <-].
    destruct (readKcpMsg_loop_replies _ _ _ Hloop) as (Hu2 & Hk2 & idxs & Hs2 & Hall).
    cbn in Hu2, Hk2, Hs2. repeat split; try congruence.
    exists idxs. split; [congruence|done].
Qed.

(** * The further properties on concrete clients *)

Lemma client_235_reachable : reachable client_235.
Proof.
  pose proof (Client_ready_reachable example_conv 0 0 eq_refl) as H0.
  do 4
    (match type of H0 with
     | reachable ?c0 =>
         let r := eval vm_compute in (listenerCallback 7 c0) in
         match r with
         | Ret (?i, ?c1) =>
             apply (reach_accept 7 c0 i c1) in H0;
             [|vm_compute; reflexivity]
         end
     end).
  apply (reach_kcp_recv (kcpCloseMsg 4)) in H0.
  apply (reach_readKcpMsg _ true client_235 H0). vm_compute. reflexivity.
Qed.

(** The first seven bytes of the data message for [hello] are not yet a
    message. *)
Lemma readKcpMsg_partial_message_witness :
  readKcpMsg (set_kcpInBuf (take 7 (kcpDataMsg 2 hello)) client_235)
  = Ret (false, set_kcpInBuf (take 7 (kcpDataMsg 2 hello)) client_235).
Proof.
  apply (readKcpMsg_partial_message (kcpDataMsg 2 hello) 7
           (set_kcpInBuf (take 7 (kcpDataMsg 2 hello)) client_235)).
  - split; [vm_compute; discriminate|reflexivity].
  - simpl. lia.
  - reflexivity.
Defined.

(** [hello] for index 2 is delivered in the same way when a close message
    for index 3 follows it in the buffer. *)
Lemma readKcpMsg_ignores_following_bytes_witness :
  exists c',
    readKcpMsg client_hello_in = Ret (true, c')
    /\ readKcpMsg
         (set_kcpInBuf (kcpInBuf_ client_hello_in ++ kcpCloseMsg 3)
            client_hello_in)
       = Ret (true, set_kcpInBuf (kcpInBuf_ c' ++ kcpCloseMsg 3) c').
Proof.
  eexists. split; [vm_compute; reflexivity|].
  apply (readKcpMsg_ignores_following_bytes (kcpCloseMsg 3) client_hello_in).
  vm_compute. reflexivity.
Defined.

(** [hello] for index 2 and the first three bytes of a close message for
    index 3 arrive, then the other four bytes. *)
Lemma readKcpMsg_loop_incremental_witness :
  exists c1 r,
    readKcpMsg_loop 2
      (set_kcpInBuf (kcpDataMsg 2 hello ++ take 3 (kcpCloseMsg 3)) client_235)
    = Some (Ret c1)
    /\ readKcpMsg_loop 2
         (set_kcpInBuf (kcpInBuf_ c1 ++ drop 3 (kcpCloseMsg 3)) c1)
       = Some r
    /\ readKcpMsg_loop 4
         (set_kcpInBuf
            ((kcpDataMsg 2 hello ++ take 3 (kcpCloseMsg 3))
               ++ drop 3 (kcpCloseMsg 3)) client_235)
       = Some r.
Proof.
  do 2 eexists. split; [vm_compute; reflexivity|].
  split; [vm_compute; reflexivity|].
  eapply (readKcpMsg_loop_incremental (drop 3 (kcpCloseMsg 3)) 2 2
            (set_kcpInBuf (kcpDataMsg 2 hello ++ take 3 (kcpCloseMsg 3))
               client_235)).
  - vm_compute. reflexivity.
  - vm_compute. reflexivity.
Defined.

(** Two data messages for index 2 and three bytes of a third. *)
Lemma readKcpMsg_loop_delivers_witness :
  exists c' s',
    readKcpMsg_loop 3
      (set_kcpInBuf
         (concat (map (kcpDataMsg 2) [hello; hello])
            ++ [Byte.x09; Byte.x00; Byte.x02]) client_235)
    = Some (Ret c')
    /\ kcpInBuf_ c' = [Byte.x09; Byte.x00; Byte.x02]
    /\ sessions c' !! 1%positive = Some s'
    /\ bevOutput s' = bevOutput (session_at 2 7) ++ concat [hello; hello]
    /\ connIdx_ s' = connIdx_ (session_at 2 7)
    /\ conns_ c' = conns_ client_235
    /\ kcpSent c' = kcpSent client_235
    /\ (forall q', q' <> 1%positive ->
          sessions c' !! q' = sessions client_235 !! q').
Proof.
  apply (readKcpMsg_loop_delivers 2 1%positive [hello; hello]
           [Byte.x09; Byte.x00; Byte.x02]
           (set_kcpInBuf
              (concat (map (kcpDataMsg 2) [hello; hello])
                 ++ [Byte.x09; Byte.x00; Byte.x02]) client_235)
           (session_at 2 7) 3).
  - discriminate.
  - reflexivity.
  - repeat constructor; vm_compute; discriminate.
  - intros [H4 _]. vm_compute in H4. by apply H4.
  - reflexivity.
  - reflexivity.
  - reflexivity.
  - simpl. lia.
Defined.

Lemma tcp_input_greedy_chunks_witness :
  exists chunks : list (list byte),
    handleIncomingTCPMesasge 1%positive hello client_235
    = Ret (set_kcpSent
             (kcpSent client_235
                ++ map (kcpDataMsg (connIdx_ (session_at 2 7))) chunks)
             client_235)
    /\ concat chunks = hello
    /\ (forall k ch, chunks !! k = Some ch -> (S k < length chunks)%nat ->
          N.of_nat (length ch) = 65531)
    /\ N.of_nat (length chunks) = (N.of_nat (length hello) + 65530) / 65531.
Proof.
  apply (tcp_input_greedy_chunks 1%positive (session_at 2 7) hello client_235).
  reflexivity.
Defined.

(** What is sent for [hello] read from the session of index 2 is delivered
    as [hello] by a decoder that has a session under index 2. *)
Lemma chunk_then_decode_witness :
  exists c1' frames fuel c2' s2',
    handleIncomingTCPMesasge 1%positive hello client_235 = Ret c1'
    /\ kcpSent c1' = kcpSent client_235 ++ frames
    /\ readKcpMsg_loop fuel (set_kcpInBuf (concat frames) client_235)
       = Some (Ret c2')
    /\ kcpInBuf_ c2' = []
    /\ sessions c2' !! 1%positive = Some s2'
    /\ bevOutput s2' = bevOutput (session_at 2 7) ++ hello.
Proof.
  apply (chunk_then_decode 1%positive 1%positive (session_at 2 7)
           (session_at 2 7) hello client_235 client_235).
  - reflexivity.
  - discriminate.
  - reflexivity.
  - reflexivity.
  - reflexivity.
Defined.

(** The keep-alive message [05 00 00 00 02] is taken and dropped. *)
Lemma readKcpMsg_unknown_control_witness :
  readKcpMsg (set_kcpInBuf kcpKeepAliveMsg client_235)
  = Ret (true, set_kcpInBuf [] client_235).
Proof.
  apply (readKcpMsg_unknown_control Byte.x02
           (set_kcpInBuf kcpKeepAliveMsg client_235)).
  - split; vm_compute; discriminate.
  - reflexivity.
  - vm_compute. discriminate.
  - reflexivity.
  - vm_compute. discriminate.
Defined.


Lemma kcpCloseMsg_roundtrip_witness :
  kcpCloseMsg 3
  = [Byte.x07; Byte.x00; Byte.x00; Byte.x00; Byte.x01; Byte.x03; Byte.x00]
  /\ readKcpMsg_frame (kcpCloseMsg 3 ++ hello)
     = Some (KCP_MSG_CONNIDX_NONE, kcpCloseMsg 3, hello)
  /\ string_u8_at (kcpCloseMsg 3) 4 = Some KCP_MSG_TYPE_CLOSE_CONN
  /\ string_u16_at (kcpCloseMsg 3) 5 = Some 3
  /\ (5 < 65536 -> kcpCloseMsg 3 = kcpCloseMsg 5 -> 3 = 5).
Proof.
  apply (kcpCloseMsg_roundtrip 3 5 hello). reflexivity.
Defined.

(** The next connection of [client_235] gets the index 6 and the address
    5. *)
Lemma listenerCallback_registers_witness :
  exists c',
    listenerCallback 8 client_235 = Ret (6, c')
    /\ conns_ c' !! 6 = Some 5%positive
    /\ sessions c' !! 5%positive = Some (session_at 6 8)
    /\ conns_ c' !! 2 = conns_ client_235 !! 2.
Proof.
  destruct (listenerCallback_registers 8 client_235 (proj2 client_235_wf))
    as (c' & Hrun & _ & Hsess & _ & _ & Hother & Hfree & _).
  exists c'. split; [exact Hrun|]. split; [exact (Hfree eq_refl)|].
  split; [exact Hsess|]. apply Hother. discriminate.
Defined.

Lemma accept_all_consecutive_witness :
  exists idxs c',
    accept_all [7; 8; 9]%Z (Client_ready example_conv 0 0) = Ret (idxs, c')
    /\ length idxs = 3%nat
    /\ (forall k idx, idxs !! k = Some idx -> idx = 2 + N.of_nat k /\ idx <> 0).
Proof.
  destruct (accept_all_consecutive [7; 8; 9]%Z (Client_ready example_conv 0 0))
    as (idxs & c' & Hrun & Hlen & _ & _ & Hnew).
  exists idxs, c'. split; [exact Hrun|]. split; [exact Hlen|].
  apply Hnew; [reflexivity|vm_compute; discriminate].
Defined.

(** After the connection of index 2 has ended, the close message the client
    sent for it is self-delimiting. *)
Lemma outbound_messages_self_delimiting_witness :
  exists c',
    cb_tcpEvent 1%positive client_235 = Ret c'
    /\ kcpSent c' = [kcpCloseMsg 2]
    /\ (4 <= N.of_nat (length (kcpCloseMsg 2)) <= 65535
        /\ frame_len (kcpCloseMsg 2) = N.of_nat (length (kcpCloseMsg 2))
        /\ forall more,
             readKcpMsg_frame (kcpCloseMsg 2 ++ more)
             = Some (frame_idx (kcpCloseMsg 2), kcpCloseMsg 2, more)).
Proof.
  eexists. split; [reflexivity|]. split; [reflexivity|].
  eapply outbound_messages_self_delimiting.
  - apply (reach_tcp_event 1%positive client_235 _ client_235_reachable).
    reflexivity.
  - apply list_elem_of_here.
Defined.

(** Three handshake datagrams of a new client. *)
Lemma raw_datagrams_are_handshake_witness :
  length (udpSent (sendInitKCPConvPkg
                     (checkInitKCP 100
                        (sendInitKCPConvPkg (Client_new example_conv 0 0)))))
  = 3%nat
  /\ forall d,
       d ∈ udpSent (sendInitKCPConvPkg
                      (checkInitKCP 100
                         (sendInitKCPConvPkg (Client_new example_conv 0 0)))) ->
       d = initKCPConvPkg example_conv.
Proof.
  split; [reflexivity|].
  apply (raw_datagrams_are_handshake
           (sendInitKCPConvPkg
              (checkInitKCP 100
                 (sendInitKCPConvPkg (Client_new example_conv 0 0))))).
  apply reach_sendInit, reach_checkInitKCP, reach_sendInit, reach_new.
Defined.

Lemma callback_step_append_only_witness :
  kcpConv_ (kcpKeepAlive client_235) = kcpConv_ client_235
  /\ kcpSent client_235 `prefix_of` kcpSent (kcpKeepAlive client_235)
  /\ udpSent client_235 `prefix_of` udpSent (kcpKeepAlive client_235).
Proof.
  apply (callback_step_append_only client_235 (kcpKeepAlive client_235)).
  apply step_keepAlive.
Defined.

Lemma reachable_table_consistent_witness :
  (forall k p, conns_ client_235 !! k = Some p ->
     exists s, sessions client_235 !! p = Some s /\ connIdx_ s = k)
  /\ (forall k1 k2 p, conns_ client_235 !! k1 = Some p ->
        conns_ client_235 !! k2 = Some p -> k1 = k2)
  /\ sessions client_235 !! sessionsNext client_235 = None.
Proof.
  apply (reachable_table_consistent client_235). exact client_235_reachable.
Defined.

(** The echo comes after the timer runs of seconds 100 and 101; the run of
    second 102 breaks the loop after three datagrams. *)
Lemma setup_initKCP_echo_witness :
  exists c',
    setup_initKCP
      (map SetupTimer [100; 101]%Z
         ++ SetupUdp (initKCPConvPkg example_conv) (mkKcpReply 0 []) 1
         :: SetupTimer 102 :: []) (Client_new example_conv 0 0)
    = Some (Ret (true, c'))
    /\ isInitKCPConv_ c' = true
    /\ loopBreak (base_ c') = true
    /\ loopExit (base_ c') = false
    /\ udpSent c' = replicate 3 (initKCPConvPkg example_conv)
    /\ kcpSent c' = []
    /\ conns_ c' = ∅.
Proof.
  apply (setup_initKCP_echo [100; 101]%Z 102 (mkKcpReply 0 []) 1 []
           (Client_new example_conv 0 0)).
  - reflexivity.
  - reflexivity.
  - reflexivity.
  - reflexivity.
  - repeat constructor; simpl; lia.
Defined.

(** Timer runs every second from second 100 on and no echo: twelve
    datagrams, the last one at second 110, and [setup] fails at second
    111. *)
Lemma setup_initKCP_timeout_witness :
  exists c',
    setup_initKCP
      (map SetupTimer
         [100; 101; 102; 103; 104; 105; 106; 107; 108; 109; 110; 111]%Z)
      (Client_new example_conv 0 0)
    = Some (Ret (false, c'))
    /\ running_ c' = false
    /\ loopExit (base_ c') = true
    /\ isInitKCPConv_ c' = false
    /\ udpSent c' = replicate 12 (initKCPConvPkg example_conv)
    /\ kcpSent c' = [].
Proof.
  apply (setup_initKCP_timeout 100
           [101; 102; 103; 104; 105; 106; 107; 108; 109; 110]%Z 111 []
           (Client_new example_conv 0 0)).
  - reflexivity.
  - reflexivity.
  - reflexivity.
  - repeat constructor; simpl; lia.
  - lia.
Defined.

Lemma stop_drained_once_witness :
  exists c',
    stop (Client_ready example_conv 0 0) = Ret c'
    /\ running_ c' = false
    /\ listenerEnabled (base_ c') = false
    /\ exitEvTimer_ (base_ c') = Some 3%Z
    /\ kcpSent c' = kcpSent (Client_ready example_conv 0 0)
    /\ udpSent c' = udpSent (Client_ready example_conv 0 0)
    /\ sessions c' = sessions (Client_ready example_conv 0 0)
    /\ stop c' = Ret c'
    /\ loopExit (base_ (cb_exitLoop c')) = true.
Proof.
  apply (stop_drained_once (Client_ready example_conv 0 0)); reflexivity.
Defined.

(** A datagram that delivers a data message for the unknown index 9 makes
    the client send close messages only. *)
Lemma cb_udpRead_replies_witness :
  exists c',
    cb_udpRead (Some hello) (mkKcpReply 0 [kcpDataMsg 9 hello]) 2 client_235
    = Some (Ret c')
    /\ kcpSent c' = [kcpCloseMsg 9]
    /\ (udpSent c' = udpSent client_235 /\ kcpConv_ c' = kcpConv_ client_235
        /\ exists idxs,
             kcpSent c' = kcpSent client_235 ++ map kcpCloseMsg idxs
             /\ Forall (fun i => i <> KCP_MSG_CONNIDX_NONE) idxs).
Proof.
  eexists. split; [vm_compute; reflexivity|]. split; [reflexivity|].
  apply (cb_udpRead_replies (Some hello) (mkKcpReply 0 [kcpDataMsg 9 hello]) 2
           client_235).
  vm_compute. reflexivity.
Defined.
